(** * EduBot backend ([backend/app.py]): audio upload, summary and quiz endpoints

    A shallow embedding of the request handlers of [backend/app.py] and of the
    Python operations they rely on, followed by the properties of the
    handlers.

    Conventions.
    - A Python [str] is a [string]; each [ascii] stands for one character,
      read as the code point of the same number (the alphabet of the model is
      the first 256 code points).  [len] counts characters.
    - A Python [int] is a [Z]; a [bool] is an [int] for [isinstance] and for
      comparisons, as in Python.
    - A JSON document, once decoded, is a [pyval]; a [dict] keeps the order of
      its keys and is an association list.
    - A call either returns or raises: [outcome].  Code that touches the
      upload directory or the LLM provider runs in the state monad [M] over
      [World].
    - What the process does not decide (the installed packages, the answers
      of the two providers, the JSON decoder, the random file name, a fault
      while the upload is stored) is a field of [Env].
    - A handler returns the object it builds; the validation of that object
      against the [response_model] of the route is FastAPI's and is not part
      of the model. *)

From Stdlib Require Import ZArith String Ascii List Bool Lia DecimalString.
From stdpp Require Import gmap strings list fin_maps.

Set Warnings "-register-all".

(** ** Python values and exceptions *)

Inductive pyval : Type :=
| PyNone
| PyBool (b : bool)
| PyInt (n : Z)
| PyFloat (repr : string)
| PyStr (s : string)
| PyList (items : list pyval)
| PyDict (entries : list (string * pyval)).

(** An exception is FastAPI's [HTTPException] or an exception of another
    class, kept with the name of its class and its message.  All of them are
    subclasses of [Exception]: an [except Exception] clause catches each. *)
Inductive exn : Type :=
| HTTPException (status_code : Z) (detail : string)
| PyExc (cls : string) (msg : string).

Inductive outcome (A : Type) : Type :=
| Returns (a : A)
| Raises (e : exn).
Arguments Returns {A} a.
Arguments Raises {A} e.

#[global] Instance outcome_ret : MRet outcome := @Returns.
#[global] Instance outcome_bind : MBind outcome :=
  λ A B f m, match m with Returns a => f a | Raises e => Raises e end.

Module Py.

Definition type_name (v : pyval) : string :=
  match v with
  | PyNone => "NoneType"
  | PyBool _ => "bool"
  | PyInt _ => "int"
  | PyFloat _ => "float"
  | PyStr _ => "str"
  | PyList _ => "list"
  | PyDict _ => "dict"
  end.

Definition TypeError {A} (msg : string) : outcome A := Raises (PyExc "TypeError" msg).
Definition ValueError {A} (msg : string) : outcome A := Raises (PyExc "ValueError" msg).
Definition quoted (s : string) : string := "'" +:+ s +:+ "'".

(** [str(n)] for an [int]. *)
Definition str_of_int (n : Z) : string := NilZero.string_of_int (Z.to_int n).

(** [str(e)].  For [HTTPException] this is Starlette's [__str__]; the
    messages of the interpreter's own exceptions are CPython's. *)
Definition str_of_exn (e : exn) : string :=
  match e with
  | HTTPException sc d => str_of_int sc +:+ ": " +:+ d
  | PyExc _ msg => msg
  end.

(** *** Strings *)

Definition len_str (s : string) : Z := Z.of_nat (String.length s).

(** [s[:n]] for [n >= 0]. *)
Fixpoint slice_to (n : nat) (s : string) : string :=
  match n, s with
  | S n', String c s' => String c (slice_to n' s')
  | _, _ => EmptyString
  end.

(** [s.startswith(p)]. *)
Definition startswith (s p : string) : bool := String.prefix p s.

(** [x.startswith(p)] for a value that is a string or [None]. *)
Definition attr_startswith (x : option string) (p : string) : outcome bool :=
  match x with
  | Some s => Returns (startswith s p)
  | None => Raises (PyExc "AttributeError"
                      "'NoneType' object has no attribute 'startswith'")
  end.

(** [sub in s] for two strings. *)
Fixpoint str_contains (sub s : string) : bool :=
  String.prefix sub s ||
  match s with
  | EmptyString => false
  | String _ s' => str_contains sub s'
  end.

Fixpoint all_chars (p : ascii → bool) (s : string) : bool :=
  match s with
  | EmptyString => true
  | String c s' => p c && all_chars p s'
  end.

Definition is_decimal (c : ascii) : bool :=
  (48 <=? nat_of_ascii c)%nat && (nat_of_ascii c <=? 57)%nat.

(** Characters with Numeric_Type Digit or Decimal among the first 256 code
    points: the ten decimal digits and the superscripts two, three and one
    (U+00B2, U+00B3, U+00B9). *)
Definition is_digit (c : ascii) : bool :=
  is_decimal c ||
  (nat_of_ascii c =? 178)%nat || (nat_of_ascii c =? 179)%nat ||
  (nat_of_ascii c =? 185)%nat.

(** [s.isdigit()]. *)
Definition isdigit (s : string) : bool :=
  match s with
  | EmptyString => false
  | _ => all_chars is_digit s
  end.

Fixpoint decimal_value (acc : Z) (s : string) : Z :=
  match s with
  | EmptyString => acc
  | String c s' => decimal_value (10 * acc + (Z.of_nat (nat_of_ascii c) - 48)) s'
  end.

(** The number of decimal digits [s] starts with. *)
Fixpoint leading_decimals (s : string) : nat :=
  match s with
  | EmptyString => O
  | String c s' => if is_decimal c then S (leading_decimals s') else O
  end.

(** [sys.get_int_max_str_digits()], at its default. *)
Definition max_str_digits : nat := 4300.

(** [int(s)] for a string on which [isdigit()] holds: [ValueError] when the
    string starts with more decimal digits than [max_str_digits] (CPython
    3.11 and later; leading zeros count), the decimal value when every
    character is a decimal digit, and [ValueError] otherwise (the superscript
    digits are digits but not decimal). *)
Definition int_of_str (s : string) : outcome Z :=
  if (max_str_digits <? leading_decimals s)%nat then
    ValueError ("Exceeds the limit (4300 digits) for integer string conversion: value has "
                +:+ str_of_int (Z.of_nat (leading_decimals s))
                +:+ " digits; use sys.set_int_max_str_digits() to increase the limit")
  else
    match s with
    | EmptyString => ValueError ("invalid literal for int() with base 10: " +:+ quoted s)
    | _ =>
        if all_chars is_decimal s then Returns (decimal_value 0 s)
        else ValueError ("invalid literal for int() with base 10: " +:+ quoted s)
    end.

(** *** Truth values *)

(** [not x] for an optional string such as the result of [os.getenv]. *)
Definition falsy (x : option string) : bool :=
  match x with
  | None => true
  | Some s => String.eqb s ""
  end.

(** *** Dictionaries *)

Fixpoint dict_get (k : string) (d : list (string * pyval)) : option pyval :=
  match d with
  | [] => None
  | (k', v) :: d' => if String.eqb k' k then Some v else dict_get k d'
  end.

(** [d[k] = v]: an existing key keeps its position. *)
Fixpoint dict_set (k : string) (v : pyval) (d : list (string * pyval))
  : list (string * pyval) :=
  match d with
  | [] => [(k, v)]
  | (k', v') :: d' =>
      if String.eqb k' k then (k', v) :: d' else (k', v') :: dict_set k v d'
  end.

(** *** Operations on values of any type *)

Definition isinstance_int (v : pyval) : bool :=
  match v with PyInt _ | PyBool _ => true | _ => false end.

Definition isinstance_list (v : pyval) : bool :=
  match v with PyList _ => true | _ => false end.

Definition isinstance_dict (v : pyval) : bool :=
  match v with PyDict _ => true | _ => false end.

(** The integer a value of type [int] (or [bool]) compares as. *)
Definition as_int (v : pyval) : option Z :=
  match v with
  | PyInt n => Some n
  | PyBool b => Some (if b then 1 else 0)%Z
  | _ => None
  end.

(** [len(v)]. *)
Definition len (v : pyval) : outcome Z :=
  match v with
  | PyStr s => Returns (len_str s)
  | PyList l => Returns (Z.of_nat (length l))
  | PyDict d => Returns (Z.of_nat (length d))
  | _ => TypeError ("object of type " +:+ quoted (type_name v) +:+ " has no len()")
  end.

Definition is_str (k : string) (v : pyval) : bool :=
  match v with PyStr s => String.eqb s k | _ => false end.

(** [k in v] for a string [k]: a key of a dict, an element of a list, a
    substring of a string. *)
Definition contains (k : string) (v : pyval) : outcome bool :=
  match v with
  | PyDict d => Returns (match dict_get k d with Some _ => true | None => false end)
  | PyList l => Returns (existsb (is_str k) l)
  | PyStr s => Returns (str_contains k s)
  | _ => TypeError ("argument of type " +:+ quoted (type_name v) +:+ " is not iterable")
  end.

(** [v[k]] for a string [k]. *)
Definition getitem (v : pyval) (k : string) : outcome pyval :=
  match v with
  | PyDict d =>
      match dict_get k d with
      | Some x => Returns x
      | None => Raises (PyExc "KeyError" (quoted k))
      end
  | PyList _ => TypeError "list indices must be integers or slices, not str"
  | PyStr _ => TypeError "string indices must be integers, not 'str'"
  | _ => TypeError (quoted (type_name v) +:+ " object is not subscriptable")
  end.

(** [v[k] = x] for a string [k]; the updated object is returned. *)
Definition setitem (v : pyval) (k : string) (x : pyval) : outcome pyval :=
  match v with
  | PyDict d => Returns (PyDict (dict_set k x d))
  | PyList _ => TypeError "list indices must be integers or slices, not str"
  | _ => TypeError (quoted (type_name v) +:+ " object does not support item assignment")
  end.

Fixpoint chars (s : string) : list pyval :=
  match s with
  | EmptyString => []
  | String c s' => PyStr (String c EmptyString) :: chars s'
  end.

(** The elements [for q in v] runs over. *)
Definition iter (v : pyval) : outcome (list pyval) :=
  match v with
  | PyList l => Returns l
  | PyStr s => Returns (chars s)
  | PyDict d => Returns (map (λ kv, PyStr kv.1) d)
  | _ => TypeError (quoted (type_name v) +:+ " object is not iterable")
  end.

(** [v.items()]. *)
Definition items (v : pyval) : outcome (list (string * pyval)) :=
  match v with
  | PyDict d => Returns d
  | _ => Raises (PyExc "AttributeError"
                   (quoted (type_name v) +:+ " object has no attribute 'items'"))
  end.

(** [l[0]] on a list of an SDK response. *)
Definition first {A} (l : list A) : outcome A :=
  match l with
  | x :: _ => Returns x
  | [] => Raises (PyExc "IndexError" "list index out of range")
  end.

End Py.

(** ** The world *)

(** A chat-completion request, as passed to [groq_client.chat.completions.create]. *)
Record ChatRequest := {
  model : string;
  messages : list (string * string);      (* role, content *)
  temperature : string;
  max_tokens : Z;
  response_format : option string
}.

(** The upload directory (path to bytes) and the requests sent to the LLM
    provider so far. *)
Record World := {
  fs : gmap string string;
  llm_requests : list ChatRequest
}.

Definition M (A : Type) : Type := World → outcome A * World.

#[global] Instance M_ret : MRet M := λ A a w, (Returns a, w).
#[global] Instance M_bind : MBind M :=
  λ A B f m w, match m w with
               | (Returns a, w') => f a w'
               | (Raises e, w') => (Raises e, w')
               end.

Definition lift {A} (o : outcome A) : M A := λ w, (o, w).
Definition raise {A} (e : exn) : M A := lift (Raises e).

(** [try: body / except Exception as e: handler e]. *)
Definition try_except {A} (body : M A) (handler : exn → M A) : M A :=
  λ w, match body w with
       | (Returns a, w') => (Returns a, w')
       | (Raises e, w') => handler e w'
       end.

(** [try: body / finally: cleanup]; an exception of [cleanup] replaces the
    outcome of [body]. *)
Definition try_finally {A} (body : M A) (cleanup : M unit) : M A :=
  λ w, match body w with
       | (r, w') =>
           match cleanup w' with
           | (Returns _, w'') => (r, w'')
           | (Raises e, w'') => (Raises e, w'')
           end
       end.

(** The same for code that has no effect on the world. *)
Definition try_except_pure {A} (body : outcome A) (handler : exn → outcome A) : outcome A :=
  match body with
  | Returns a => Returns a
  | Raises e => handler e
  end.

(** ** The environment of the process *)

Module Deepgram.

Record PrerecordedOptions := {
  smart_format : bool;
  model : string;
  language : string;
  utterances : bool;
  detect_topics : bool;
  punctuate : bool;
  diarize : bool
}.

(** The part of a transcription response the handler reads:
    [results.channels[i].alternatives[j]] with its [transcript] and its
    [paragraphs.paragraphs[k].sentences]; times are floats, kept by their
    [repr]. *)
Record Sentence := { text : string; start : string; end_ : string }.
Record Paragraph := { sentences : list Sentence }.
Record Alternative := { transcript : string; paragraphs : list Paragraph }.
Record Channel := { alternatives : list Alternative }.
Record Response := { channels : list Channel }.

End Deepgram.

(** The Groq client object; it holds the key it was built with. *)
Record Groq := { api_key : string }.

Record Env := {
  (** [os.getenv], after [load_dotenv()] *)
  environ : string → option string;
  (** whether [from groq import Groq] succeeds *)
  groq_installed : bool;
  (** [client.chat.completions.create(...)]: the [message.content] of each
      of the [choices] of the response, or the exception of the call *)
  chat_completions_create : Groq → ChatRequest → outcome (list string);
  (** [json.loads] *)
  json_loads : string → outcome pyval;
  (** [DeepgramClient(key).listen.prerecorded.v("1").transcribe_file] on the
      bytes of the file *)
  transcribe_file :
    string → string → Deepgram.PrerecordedOptions → outcome Deepgram.Response;
  (** [str(uuid.uuid4())] of the request *)
  uuid4 : string;
  (** a fault while the upload is written to a path: the exception, and what
      is left at that path ([None]: no file was created) *)
  save_fault : string → string → option (exn * option string)
}.

(** The module-level variables of [app.py]. *)
Record Globals := {
  DEEPGRAM_API_KEY : option string;
  GROQ_API_KEY : option string;
  groq_client : option Groq
}.

Definition UPLOAD_DIR : string := "uploads".

(** The module body (lines 25-49): it raises when the transcription key is
    missing or empty, and only warns when the LLM key is.  The directory
    [UPLOAD_DIR] is created here; the model keeps the files of that
    directory, not the directory. *)
Definition startup (E : Env) : outcome Globals :=
  let DEEPGRAM_API_KEY := environ E "DEEPGRAM_API_KEY" in
  if Py.falsy DEEPGRAM_API_KEY then
    Py.ValueError "Missing DEEPGRAM_API_KEY environment variable"
  else
    let GROQ_API_KEY := environ E "GROQ_API_KEY" in
    let groq_client :=
      if negb (Py.falsy GROQ_API_KEY) then
        if groq_installed E then Some {| api_key := default "" GROQ_API_KEY |}
        else None
      else None in
    Returns {| DEEPGRAM_API_KEY := DEEPGRAM_API_KEY;
               GROQ_API_KEY := GROQ_API_KEY;
               groq_client := groq_client |}.

(** [GET /] (lines 52-54). *)
Definition root : M pyval := mret (PyDict [("message", PyStr "Hello World")]).

(** ** Files *)

Definition set_fs (f : gmap string string → gmap string string) (w : World) : World :=
  {| fs := f (fs w); llm_requests := llm_requests w |}.

Definition FileNotFoundError {A} (p : string) : outcome A :=
  Raises (PyExc "FileNotFoundError"
            ("[Errno 2] No such file or directory: " +:+ Py.quoted p)).

(** [os.path.exists(p)]. *)
Definition os_path_exists (p : string) : M bool :=
  λ w, (Returns (bool_decide (is_Some (fs w !! p))), w).

(** [os.remove(p)]. *)
Definition os_remove (p : string) : M unit :=
  λ w, match fs w !! p with
       | Some _ => (Returns (), set_fs (delete p) w)
       | None => (FileNotFoundError p, w)
       end.

(** [with open(p, 'rb') as f]: the bytes of the file. *)
Definition open_rb (p : string) : M string :=
  λ w, match fs w !! p with
       | Some data => (Returns data, w)
       | None => (FileNotFoundError p, w)
       end.


(** The suffix of [s] that starts at the last occurrence of [c]. *)
Fixpoint rsuffix (c : ascii) (s : string) : option string :=
  match s with
  | EmptyString => None
  | String a s' =>
      match rsuffix c s' with
      | Some r => Some r
      | None => if Ascii.eqb a c then Some s else None
      end
  end.

(** [os.path.splitext(p)]: the extension starts at the last dot of the last
    component, unless only dots precede it there. *)
Definition splitext (p : string) : string * string :=
  let base := match rsuffix "/" p with Some (String _ r) => r | _ => p end in
  let ext :=
    match rsuffix "." base with
    | Some r =>
        let stem := Py.slice_to (String.length base - String.length r) base in
        if Py.all_chars (Ascii.eqb ".") stem then EmptyString else r
    | None => EmptyString
    end in
  (Py.slice_to (String.length p - String.length ext) p, ext).

(** [os.path.join(a, b)] for a directory name [a] that is not empty and does
    not end with a slash. *)
Definition os_path_join (a b : string) : string :=
  if Py.startswith b "/" then b else a +:+ "/" +:+ b.

(** Lines 137-139: the upload is written to [path]; a fault leaves what
    [save_fault] says. *)
Definition save_upload (E : Env) (path data : string) : M unit :=
  λ w, match save_fault E path data with
       | None => (Returns (), set_fs <[path := data]> w)
       | Some (e, remains) =>
           (Raises e,
            match remains with
            | Some partial => set_fs <[path := partial]> w
            | None => w
            end)
       end.

(** ** Transcription (lines 56-162) *)

Definition float (repr : string) : pyval := PyFloat repr.

Definition word_entry (word start end_ : string) : pyval :=
  PyDict [("word", PyStr word); ("start", float start); ("end", float end_)].

(** The payload returned when [DEEPGRAM_API_KEY] is not set (lines 59-71). *)
Definition mock_transcription : pyval :=
  PyDict
    [("transcript",
      PyStr "This is a mock transcription for development purposes. Please set the DEEPGRAM_API_KEY environment variable for actual transcription.");
     ("words",
      PyList [word_entry "This" "0.0" "0.3";
              word_entry "is" "0.3" "0.5";
              word_entry "a" "0.5" "0.6";
              word_entry "mock" "0.6" "0.9";
              word_entry "transcription" "0.9" "1.5";
              word_entry "for" "1.5" "1.8";
              word_entry "development" "1.8" "2.5";
              word_entry "purposes" "2.5" "3.1"])].

Definition prerecorded_options : Deepgram.PrerecordedOptions :=
  {| Deepgram.smart_format := true;
     Deepgram.model := "nova-2";
     Deepgram.language := "en-US";
     Deepgram.utterances := true;
     Deepgram.detect_topics := true;
     Deepgram.punctuate := true;
     Deepgram.diarize := true |}.

Definition format_sentence (s : Deepgram.Sentence) : pyval :=
  PyDict [("text", PyStr (Deepgram.text s));
          ("start", float (Deepgram.start s));
          ("end", float (Deepgram.end_ s))].

(** The upload: [file.filename], [file.content_type] ([None] for a part sent
    without a Content-Type header) and the bytes of [file.file]. *)
Module UploadFile.
Record t := {
  filename : string;
  content_type : option string;
  file : string
}.
End UploadFile.

Section Transcription.

Variable E : Env.
Variable G : Globals.

Definition transcribe_audio (file_path : string) : M pyval :=
  if Py.falsy (DEEPGRAM_API_KEY G) then mret mock_transcription
  else
    try_except
      (buffer_data ← open_rb file_path;
       response ← lift (transcribe_file E (default "" (DEEPGRAM_API_KEY G))
                          buffer_data prerecorded_options);
       channel ← lift (Py.first (Deepgram.channels response));
       alternative ← lift (Py.first (Deepgram.alternatives channel));
       let transcript := Deepgram.transcript alternative in
       let paragraphs := Deepgram.paragraphs alternative in
       let formatted_sentences :=
         flat_map (λ paragraph, map format_sentence (Deepgram.sentences paragraph))
                  paragraphs in
       mret (PyDict [("transcript", PyStr transcript);
                     ("sentences", PyList formatted_sentences)]))
      (λ e, raise (HTTPException 500
                     ("Error during transcription: " +:+ Py.str_of_exn e))).

(** [if os.path.exists(p): os.remove(p)]. *)
Definition remove_if_exists (p : string) : M unit :=
  present ← os_path_exists p;
  if present : bool then os_remove p else mret ().

(** The path the upload of a request is stored at (lines 132-134). *)
Definition upload_path (file : UploadFile.t) : string :=
  let file_extension := (splitext (UploadFile.filename file)).2 in
  let unique_filename := uuid4 E +:+ file_extension in
  os_path_join UPLOAD_DIR unique_filename.

(** The response of lines 148-153, built from the result of
    [transcribe_audio]. *)
Definition transcription_response (file : UploadFile.t) (transcription_result : pyval)
  : outcome pyval :=
  transcription ← Py.getitem transcription_result "transcript";
  sentences ← Py.getitem transcription_result "sentences";
  Returns (PyDict [("success", PyBool true);
                   ("filename", PyStr (UploadFile.filename file));
                   ("transcription", transcription);
                   ("sentences", sentences)]).

Definition transcribe_audio_endpoint (file : UploadFile.t) : M pyval :=
  is_audio ← lift (Py.attr_startswith (UploadFile.content_type file) "audio/");
  if negb is_audio then
    raise (HTTPException 400 "File must be an audio file")
  else
    let file_path := upload_path file in
    _ ← try_except
          (save_upload E file_path (UploadFile.file file))
          (λ e, raise (HTTPException 500
                         ("Error saving file: " +:+ Py.str_of_exn e)));
    try_finally
      (try_except
         (transcription_result ← transcribe_audio file_path;
          lift (transcription_response file transcription_result))
         (λ e, _ ← remove_if_exists file_path; raise e))
      (remove_if_exists file_path).

End Transcription.

(** ** Request models (lines 240-241 and 397-399) *)

Module SummaryRequest.
Record t := { transcript : string }.
End SummaryRequest.

Module QuizRequest.
Record t := {
  transcript : string;
  num_questions : option Z      (* [Optional[int]]: [None] is JSON null *)
}.

(** How the field [num_questions: Optional[int] = 5] of a request body is
    read: the default applies to a body without the field, and [null] is
    accepted as [None]. *)
Inductive field := Omitted | Null | Value (n : Z).

Definition of_body (transcript : string) (num_questions : field) : t :=
  {| transcript := transcript;
     num_questions :=
       match num_questions with
       | Omitted => Some 5%Z
       | Null => None
       | Value n => Some n
       end |}.
End QuizRequest.

(** ** The LLM provider *)

(** The world after a request went to the provider. *)
Definition sent (request : ChatRequest) (w : World) : World :=
  {| fs := fs w; llm_requests := llm_requests w ++ [request] |}.

(** The double quote, and a text between double quotes. *)
Definition dq : string := String "034"%char EmptyString.
Definition quote (s : string) : string := dq +:+ s +:+ dq.

Section Generators.

Variable E : Env.
Variable G : Globals.

(** The client the generators call: none when
    [not GROQ_API_KEY or not groq_client]. *)
Definition llm_client : option Groq :=
  if Py.falsy (GROQ_API_KEY G) then None else groq_client G.

(** [groq_client.chat.completions.create(...)] followed by
    [response.choices[0].message.content]; the request is recorded. *)
Definition chat_completion (client : Groq) (request : ChatRequest) : M string :=
  λ w, (choices ← chat_completions_create E client request; Py.first choices,
        sent request w).

(** *** Summary (lines 164-270) *)

(** The mock summary.  Its bullet (U+2022) lies outside the alphabet of the
    model and is spelled by its three UTF-8 bytes. *)
Definition mock_summary : string := "
        • This is a mock summary for development purposes.
        • Please set the GROQ_API_KEY environment variable for actual summary generation.
        • The real summary would extract key points from the transcript.
        • It would be organized as a bullet-point list for easy reading.
        ".

Definition summary_prompt (transcript : string) : string :=
  "
        Create a concise and well-organized bullet point summary for the provided transcript.

        - Identify key points and important details from the transcript.
        - Summarize information in clear and concise bullet points.
        - Ensure that the bullet points capture the essence of the conversation or content.
        - Organize the bullets logically to maintain the flow of information.

        # Steps

        1. Read through the transcript to understand the main topics and key details.
        2. Identify and note down significant points, arguments, or data.
        3. Summarize these points into clear, concise bullet points.
        4. Ensure logical flow and organization of bullet points.
        5. Review the bullet points to ensure they are representative of the transcript's content.

        # Output Format

        - Summary should be in bullet points
        - Concise and clear sentences
        - Organized logically following the sequence of topics in the transcript

        # Examples

        ## Example Input
        [Transcript of a conversation or presentation.]

        ## Example Output
        - Introduction of the main topic
        - Key argument 1: [Summary of the argument]
        - Key argument 2: [Summary of the argument]
        - Closing remarks: [Summary of conclusions]
        (Note: In a realistic example, more detailed key points should be included.) 

        # Notes

        - Focus on clarity and brevity.
        - Avoid redundant information.
        
        Transcript:
        " +:+ transcript +:+ "
        ".

Definition summary_request (transcript : string) : ChatRequest :=
  {| model := "llama-3.3-70b-versatile";
     messages :=
       [("system", "You are a helpful assistant that creates concise, well-organized bullet point summaries.");
        ("user", summary_prompt transcript)];
     temperature := "0.3";
     max_tokens := 1024;
     response_format := None |}.

Definition generate_bullet_summary (transcript : string) : M string :=
  match llm_client with
  | None => mret mock_summary
  | Some client =>
      try_except
        (chat_completion client (summary_request transcript))
        (λ e, mret ("Error generating summary: " +:+ Py.str_of_exn e))
  end.

(** *** Quiz (lines 272-435) *)

Definition question (text : string) (options : list string) (correct_answer : Z) : pyval :=
  PyDict [("question", PyStr text);
          ("options", PyList (map PyStr options));
          ("correct_answer", PyInt correct_answer)].

Definition mock_questions : list pyval :=
  [question "What is the main topic of this mock transcript?"
     ["Artificial Intelligence"; "Machine Learning"; "Data Science"; "Mock Data"] 3;
   question "This is a mock question because..."
     ["The GROQ_API_KEY is not set"; "The transcript is too short";
      "The system is in testing mode"; "All of the above"] 0].

Definition quiz_prompt (transcript : string) (num_questions : Z) : string :=
  "
        Create a quiz with " +:+ Py.str_of_int num_questions +:+
  " multiple-choice questions based on the following transcript.
        
        Requirements:
        - Generate exactly " +:+ Py.str_of_int num_questions +:+
  " questions (or fewer if the transcript is very short)
        - Each question should have 4 options (A, B, C, D)
        - Only one option should be correct
        - Questions should test understanding of key concepts from the transcript
        - Questions should vary in difficulty (some easy, some moderate, some challenging)
        - Include the correct answer index (0-based, where 0 is the first option)
        
        Format your response as a JSON array of objects, with each object having:
        - " +:+
    quote "question" +:+
    ": The question text
        - " +:+
    quote "options" +:+
    ": An array of 4 possible answers
        - " +:+
    quote "correct_answer" +:+
    ": The index (0-3) of the correct answer
        
        Example format:
        [
          {
            " +:+
    quote "question" +:+ ": " +:+
    quote "What is the main topic discussed in the lecture?" +:+
    ",
            " +:+
    quote "options" +:+ ": [" +:+ quote "Option A" +:+ ", " +:+ quote "Option B" +:+
    ", " +:+ quote "Option C" +:+ ", " +:+ quote "Option D" +:+
    "],
            " +:+
    quote "correct_answer" +:+
    ": 2
          },
          ...more questions...
        ]
        
        Important: Your entire response should be valid JSON that can be parsed. Do not include any explanatory text outside the JSON array.
        
        Transcript:
        " +:+
  transcript +:+ "
        ".

Definition quiz_request (transcript : string) (num_questions : Z) : ChatRequest :=
  {| model := "llama-3.3-70b-versatile";
     messages :=
       [("system", "You are a helpful assistant that creates educational quizzes. You always respond with valid JSON.");
        ("user", quiz_prompt transcript num_questions)];
     temperature := "0.5";
     max_tokens := 2048;
     response_format := Some "json_object" |}.

(** [isinstance(value, list) and len(value) > 0]. *)
Definition nonempty_array (value : pyval) : bool :=
  match value with
  | PyList (_ :: _) => true
  | _ => false
  end.

(** Lines 362-368: the first value that is a non-empty list, in the order
    of the keys. *)
Fixpoint first_array (entries : list (string * pyval)) : outcome pyval :=
  match entries with
  | [] => Py.ValueError "Could not extract questions array from response"
  | (key, value) :: rest =>
      if nonempty_array value then Returns value else first_array rest
  end.

(** Lines 355-368. *)
Definition extract_questions (quiz_data : pyval) : outcome pyval :=
  match quiz_data with
  | PyDict d =>
      match Py.dict_get "questions" d with
      | Some _ => Py.getitem quiz_data "questions"
      | None => first_array d
      end
  | PyList _ => Returns quiz_data
  | _ => entries ← Py.items quiz_data; first_array entries
  end.

(** Lines 375-376. *)
Definition coerce_answer (q : pyval) : outcome pyval :=
  correct_answer ← Py.getitem q "correct_answer";
  match correct_answer with
  | PyStr s =>
      if Py.isdigit s then
        n ← Py.int_of_str s;
        Py.setitem q "correct_answer" (PyInt n)
      else Returns q
  | _ => Returns q
  end.

(** The condition of line 379, evaluated from left to right. *)
Definition answer_invalid (q : pyval) : outcome bool :=
  correct_answer ← Py.getitem q "correct_answer";
  match Py.as_int correct_answer with
  | None => Returns true
  | Some n =>
      if (n <? 0)%Z then Returns true
      else
        options ← Py.getitem q "options";
        size ← Py.len options;
        Returns (size <=? n)%Z
  end.

(** The body of the loop of lines 372-383: [None] when the question is
    skipped, the question as appended otherwise. *)
Definition validate_question (q : pyval) : outcome (option pyval) :=
  has_question ← Py.contains "question" q;
  if negb has_question then Returns None else
  has_options ← Py.contains "options" q;
  if negb has_options then Returns None else
  has_answer ← Py.contains "correct_answer" q;
  if negb has_answer then Returns None else
  q ← coerce_answer q;
  invalid ← answer_invalid q;
  q ← (if invalid : bool then Py.setitem q "correct_answer" (PyInt 0) else Returns q);
  Returns (Some q).

Fixpoint validate_questions (questions : list pyval) : outcome (list pyval) :=
  match questions with
  | [] => Returns []
  | q :: rest =>
      validated ← validate_question q;
      validated_questions ← validate_questions rest;
      Returns (match validated with
               | Some q' => q' :: validated_questions
               | None => validated_questions
               end)
  end.

Definition parse_error_question (e : exn) : pyval :=
  question ("Error parsing quiz questions: " +:+ Py.str_of_exn e)
    ["Error"; "Try again"; "Check logs"; "Contact support"] 2.

Definition generation_error_question (e : exn) : pyval :=
  question ("Error generating quiz: " +:+ Py.str_of_exn e)
    ["Error"; "Try again"; "Check API key"; "Contact support"] 2.

(** Lines 353-385: the body of the inner [try]. *)
Definition normalize_quiz (quiz_text : string) : outcome (list pyval) :=
  quiz_data ← json_loads E quiz_text;
  questions ← extract_questions quiz_data;
  items ← Py.iter questions;
  validate_questions items.

(** Lines 352-389: the inner [try] with its handler. *)
Definition parse_quiz (quiz_text : string) : outcome (list pyval) :=
  try_except_pure
    (normalize_quiz quiz_text)
    (λ e, Returns [parse_error_question e]).

Definition generate_quiz_questions (transcript : string) (num_questions : Z)
  : M (list pyval) :=
  match llm_client with
  | None => mret mock_questions
  | Some client =>
      try_except
        (quiz_text ← chat_completion client (quiz_request transcript num_questions);
         lift (parse_quiz quiz_text))
        (λ e, mret [generation_error_question e])
  end.

(** *** Endpoints *)

Definition max_length : Z := 16000.

Definition truncation_marker : string := "
[Transcript truncated due to length...]".

(** Lines 258-261 and 420-423. *)
Definition truncate_transcript (transcript : string) : string :=
  let truncated_transcript := Py.slice_to (Z.to_nat max_length) transcript in
  if (max_length <? Py.len_str transcript)%Z
  then truncated_transcript +:+ truncation_marker
  else truncated_transcript.

(** [if not request.transcript: raise HTTPException(400, ...)]. *)
Definition require_transcript (transcript : string) : M unit :=
  if String.eqb transcript "" then raise (HTTPException 400 "Transcript is required")
  else mret ().

Definition summary_response (summary : string) : pyval :=
  PyDict [("success", PyBool true); ("summary", PyStr summary)].

Definition quiz_response (questions : list pyval) : pyval :=
  PyDict [("success", PyBool true); ("questions", PyList questions)].

Definition generate_summary_endpoint (request : SummaryRequest.t) : M pyval :=
  try_except
    (_ ← require_transcript (SummaryRequest.transcript request);
     let truncated_transcript :=
       truncate_transcript (SummaryRequest.transcript request) in
     summary ← generate_bullet_summary truncated_transcript;
     mret (summary_response summary))
    (λ e, raise (HTTPException 500
                   ("Error generating summary: " +:+ Py.str_of_exn e))).

(** [max(1, min(request.num_questions, 10))]; comparing [None] with an
    [int] raises. *)
Definition clamp_num_questions (num_questions : option Z) : outcome Z :=
  match num_questions with
  | Some n => Returns (Z.max 1 (Z.min n 10))
  | None =>
      Py.TypeError "'<' not supported between instances of 'int' and 'NoneType'"
  end.

Definition generate_quiz_endpoint (request : QuizRequest.t) : M pyval :=
  try_except
    (_ ← require_transcript (QuizRequest.transcript request);
     let truncated_transcript :=
       truncate_transcript (QuizRequest.transcript request) in
     num_questions ← lift (clamp_num_questions (QuizRequest.num_questions request));
     questions ← generate_quiz_questions truncated_transcript num_questions;
     mret (quiz_response questions))
    (λ e, raise (HTTPException 500
                   ("Error generating quiz: " +:+ Py.str_of_exn e))).

End Generators.

(** The status an outcome of a handler stands for: the status of an
    [HTTPException], 500 for any other exception, and 200 for a handler that
    returns.  On a route with a [response_model] the last is the status of
    the response when the returned object passes the validation against that
    model; an object that fails it is answered 500, by FastAPI. *)
Definition http_status {A} (r : outcome A) : Z :=
  match r with
  | Returns _ => 200
  | Raises (HTTPException status_code _) => status_code
  | Raises (PyExc _ _) => 500
  end.

(** ** The invariant of a quiz question *)

(** [0 <= correct_answer < len(options)]. *)
Definition valid_index (q : pyval) : bool :=
  match Py.getitem q "correct_answer", Py.getitem q "options" with
  | Returns answer, Returns options =>
      match Py.as_int answer, Py.len options with
      | Some n, Returns size => (0 <=? n)%Z && (n <? size)%Z
      | _, _ => false
      end
  | _, _ => false
  end.



(** What holds of a question once lines 379-381 have run: its index is
    valid, or it has been set to 0. *)
Definition repaired (q : pyval) : Prop :=
  valid_index q = true ∨ Py.getitem q "correct_answer" = Returns (PyInt 0).

(** The index is valid as soon as there is an option. *)
Definition valid_when_options (q : pyval) : Prop :=
  ∀ options size,
    Py.getitem q "options" = Returns options →
    Py.len options = Returns size →
    (0 < size)%Z →
    valid_index q = true.

(** ** Sample environments *)

Module Sample.

Definition getenv (deepgram groq : option string) (name : string) : option string :=
  if String.eqb name "DEEPGRAM_API_KEY" then deepgram
  else if String.eqb name "GROQ_API_KEY" then groq
  else None.

Definition offline {A} : outcome A :=
  Raises (PyExc "APIConnectionError" "Connection error.").

Definition not_json {A} : outcome A :=
  Raises (PyExc "JSONDecodeError" "Expecting value: line 1 column 1 (char 0)").

(** Both keys are set and both providers are unreachable. *)
Definition env : Env :=
  {| environ := getenv (Some "dg-key") (Some "gsk-key");
     groq_installed := true;
     chat_completions_create := λ _ _, offline;
     json_loads := λ _, not_json;
     transcribe_file := λ _ _ _, offline;
     uuid4 := "0b6f3c1e-5d47-4a8e-9b1a-0c6d2e7f9a10";
     save_fault := λ _ _, None |}.


(** The transcription provider answers with one paragraph of two sentences. *)
Definition lecture : Deepgram.Response :=
  {| Deepgram.channels :=
       [{| Deepgram.alternatives :=
             [{| Deepgram.transcript := "Welcome. Let us begin.";
                 Deepgram.paragraphs :=
                   [{| Deepgram.sentences :=
                         [{| Deepgram.text := "Welcome.";
                             Deepgram.start := "0.08";
                             Deepgram.end_ := "0.56" |};
                          {| Deepgram.text := "Let us begin.";
                             Deepgram.start := "0.9";
                             Deepgram.end_ := "1.7" |}] |}] |}] |}] |}.

Definition transcribing_env : Env :=
  {| environ := environ env;
     groq_installed := true;
     chat_completions_create := λ _ _, offline;
     json_loads := λ _, not_json;
     transcribe_file := λ _ _ _, Returns lecture;
     uuid4 := uuid4 env;
     save_fault := λ _ _, None |}.

(** The disk is full: the file of the upload is created and stays empty. *)
Definition full_disk_env : Env :=
  {| environ := environ env;
     groq_installed := true;
     chat_completions_create := λ _ _, offline;
     json_loads := λ _, not_json;
     transcribe_file := λ _ _ _, Returns lecture;
     uuid4 := uuid4 env;
     save_fault := λ _ _,
       Some (PyExc "OSError" "[Errno 28] No space left on device", Some "") |}.

(** The LLM answers every request with [text], which decodes to [data]. *)
Definition llm_env (text : string) (data : pyval) : Env :=
  {| environ := environ env;
     groq_installed := true;
     chat_completions_create := λ _ _, Returns [text];
     json_loads := λ s, if String.eqb s text then Returns data else not_json;
     transcribe_file := λ _ _ _, offline;
     uuid4 := uuid4 env;
     save_fault := λ _ _, None |}.

Definition globals : Globals :=
  {| DEEPGRAM_API_KEY := Some "dg-key";
     GROQ_API_KEY := Some "gsk-key";
     groq_client := Some {| api_key := "gsk-key" |} |}.

(** Only the transcription key is set: the generators are in stub mode. *)
Definition stub_globals : Globals :=
  {| DEEPGRAM_API_KEY := Some "dg-key";
     GROQ_API_KEY := None;
     groq_client := None |}.

(** Module variables without the transcription key, as no started process
    has them. *)
Definition keyless_globals : Globals :=
  {| DEEPGRAM_API_KEY := None;
     GROQ_API_KEY := None;
     groq_client := None |}.

Definition world : World := {| fs := ∅; llm_requests := [] |}.

(** A transcript of [n] characters. *)
Fixpoint letters (n : nat) : string :=
  match n with
  | O => EmptyString
  | S n' => String "a" (letters n')
  end.

(** A JSON string literal. *)
Definition jstr (s : string) : string := quote s.

Definition raw_question (text : string) (options : list string) (answer : pyval) : pyval :=
  PyDict [("question", PyStr text);
          ("options", PyList (map PyStr options));
          ("correct_answer", answer)].



(** An answer whose [questions] key holds a string, not an array. *)
Definition no_array_text : string :=
  "{" +:+ jstr "questions" +:+ ": " +:+ jstr "none" +:+ "}".

Definition no_array_data : pyval := PyDict [("questions", PyStr "none")].

(** The superscript two, U+00B2. *)
Definition superscript_two : string := String "178"%char EmptyString.

(** An answer whose only question has the string of a superscript two as
    [correct_answer]. *)
Definition superscript_text : string :=
  "[{" +:+ jstr "question" +:+ ": " +:+ jstr "What is x squared?" +:+ ", " +:+
  jstr "options" +:+ ": [" +:+ jstr "x" +:+ ", " +:+ jstr "2x" +:+ ", " +:+
  jstr "x*x" +:+ ", " +:+ jstr "x+2" +:+ "], " +:+
  jstr "correct_answer" +:+ ": " +:+ jstr superscript_two +:+ "}]".

Definition superscript_data : pyval :=
  PyList [raw_question "What is x squared?" ["x"; "2x"; "x*x"; "x+2"]
            (PyStr superscript_two)].






(** An answer with a well-formed question followed by [null]. *)
Definition null_element_text : string :=
  "[{" +:+ jstr "question" +:+ ": " +:+ jstr "What is x squared?" +:+ ", " +:+
  jstr "options" +:+ ": [" +:+ jstr "x" +:+ ", " +:+ jstr "2x" +:+ ", " +:+
  jstr "x*x" +:+ ", " +:+ jstr "x+2" +:+ "], " +:+
  jstr "correct_answer" +:+ ": 2}, null]".

Definition null_element_data : pyval :=
  PyList [raw_question "What is x squared?" ["x"; "2x"; "x*x"; "x+2"] (PyInt 2);
          PyNone].

(** An upload sent without a Content-Type header. *)
Definition untyped_upload : UploadFile.t :=
  {| UploadFile.filename := "lecture.mp3";
     UploadFile.content_type := None;
     UploadFile.file := "RIFF" |}.

Definition upload : UploadFile.t :=
  {| UploadFile.filename := "lecture.mp3";
     UploadFile.content_type := Some "audio/mpeg";
     UploadFile.file := "RIFF" |}.

End Sample.
(** * Properties *)

Example splitext_examples :
  splitext "lecture.mp3" = ("lecture", ".mp3") ∧
  splitext "a/b.c/talk" = ("a/b.c/talk", "") ∧
  splitext ".hidden" = (".hidden", "") ∧
  splitext "x.tar.gz" = ("x.tar", ".gz").
Proof. repeat split; reflexivity. Qed.

Ltac run :=
  unfold mbind, mret, M_bind, M_ret, lift, raise, try_except, try_finally; simpl.

(** ** The upload is removed (lines 143-162) *)

Section Cleanup.

Variable E : Env.
Variable G : Globals.

(** Transcription reads the upload directory and leaves it as it is. *)
Lemma transcribe_audio_world file_path w :
  (transcribe_audio E G file_path w).2 = w.
Proof.
  unfold transcribe_audio.
  destruct (Py.falsy (DEEPGRAM_API_KEY G)); [reflexivity|].
  run. unfold open_rb.
  destruct (fs w !! file_path) as [data|]; simpl; [|reflexivity].
  destruct (transcribe_file E _ data _) as [response|e]; simpl; [|reflexivity].
  destruct (Py.first (Deepgram.channels response)) as [channel|e]; simpl; [|reflexivity].
  destruct (Py.first (Deepgram.alternatives channel)); reflexivity.
Qed.

Lemma remove_if_exists_present p data w :
  fs w !! p = Some data →
  remove_if_exists p w = (Returns (), set_fs (delete p) w).
Proof.
  intros Hp. unfold remove_if_exists, os_path_exists, os_remove.
  unfold mbind, M_bind.
  rewrite bool_decide_eq_true_2 by eauto. rewrite Hp. reflexivity.
Qed.

Lemma remove_if_exists_absent p w :
  fs w !! p = None → remove_if_exists p w = (Returns (), w).
Proof.
  intros Hp. unfold remove_if_exists, os_path_exists.
  unfold mbind, M_bind.
  rewrite bool_decide_eq_false_2; [reflexivity|].
  rewrite Hp. intros [x Hx]; discriminate.
Qed.

(** Once the upload is stored, the handler answers as transcription of the
    stored file does, and ends in the world where the file has been written
    and deleted. *)
Lemma endpoint_run file content_type w :
  UploadFile.content_type file = Some content_type →
  Py.startswith content_type "audio/" = true →
  save_fault E (upload_path E file) (UploadFile.file file) = None →
  transcribe_audio_endpoint E G file w =
    (transcription_result ←
       (transcribe_audio E G (upload_path E file)
          (set_fs <[upload_path E file := UploadFile.file file]> w)).1;
     transcription_response file transcription_result,
     set_fs (delete (upload_path E file))
       (set_fs <[upload_path E file := UploadFile.file file]> w)).
Proof.
  intros Htype Haudio Hsave. unfold transcribe_audio_endpoint.
  rewrite Htype. unfold Py.attr_startswith, mbind at 1, M_bind at 1, lift.
  rewrite Haudio. change (negb true) with false. cbv iota zeta.
  set (path := upload_path E file) in *.
  unfold mbind at 1, M_bind at 1, try_finally, try_except, save_upload. cbv beta.
  rewrite Hsave.
  set (w1 := set_fs <[path := UploadFile.file file]> w).
  assert (Hin : fs w1 !! path = Some (UploadFile.file file))
    by (apply lookup_insert_eq).
  assert (Hout : fs (set_fs (delete path) w1) !! path = None)
    by (apply lookup_delete_eq).
  pose proof (transcribe_audio_world path w1) as Hw.
  unfold mbind at 1, M_bind at 1.
  destruct (transcribe_audio E G path w1) as [[result|e] w2];
    simpl in Hw; subst w2; simpl.
  - unfold lift.
    destruct (transcription_response file result) as [response|e].
    + rewrite (remove_if_exists_present _ _ _ Hin). reflexivity.
    + unfold mbind, M_bind.
      rewrite (remove_if_exists_present _ _ _ Hin). unfold raise, lift.
      rewrite (remove_if_exists_absent _ _ Hout). reflexivity.
  - unfold mbind, M_bind.
    rewrite (remove_if_exists_present _ _ _ Hin). unfold raise, lift.
    rewrite (remove_if_exists_absent _ _ Hout). reflexivity.
Qed.

End Cleanup.

Example startup_sample : startup Sample.env = Returns Sample.globals.
Proof. reflexivity. Qed.

Example startup_llm_sample text data :
  startup (Sample.llm_env text data) = Returns Sample.globals.
Proof. reflexivity. Qed.

Example upload_path_sample :
  upload_path Sample.env Sample.upload
  = "uploads/0b6f3c1e-5d47-4a8e-9b1a-0c6d2e7f9a10.mp3".
Proof. reflexivity. Qed.

(** A failed transcription: the handler answers 500. *)
Example transcription_failure_sample :
  (transcribe_audio_endpoint Sample.env Sample.globals Sample.upload Sample.world).1
  = Raises (HTTPException 500 "Error during transcription: Connection error.").
Proof. reflexivity. Qed.

(** A transcription: the handler answers with the text and the sentences,
    and the upload directory is empty again. *)
Example transcription_success_sample :
  transcribe_audio_endpoint Sample.transcribing_env Sample.globals Sample.upload
    Sample.world
  = (Returns
       (PyDict
          [("success", PyBool true);
           ("filename", PyStr "lecture.mp3");
           ("transcription", PyStr "Welcome. Let us begin.");
           ("sentences",
            PyList
              [PyDict [("text", PyStr "Welcome.");
                       ("start", PyFloat "0.08"); ("end", PyFloat "0.56")];
               PyDict [("text", PyStr "Let us begin.");
                       ("start", PyFloat "0.9"); ("end", PyFloat "1.7")]])]),
     Sample.world).
Proof. vm_compute. reflexivity. Qed.

(** Cleanup once the upload is stored (lines 143-162). For every upload the
    transcribe endpoint
    accepts (content type starting with [audio/]) and has written to its
    uniquely named path in the upload directory, that file does not exist
    when the handler is done, on the success path and on every failure path
    after the write: whether transcription of the stored file returns or
    raises, and whether or not the response can be built from its result. The
    other files of the directory are as before. *)
Lemma upload_removed_on_every_path (E : Env) (G : Globals) (file : UploadFile.t)
    (content_type : string) (w : World) :
  UploadFile.content_type file = Some content_type →
  Py.startswith content_type "audio/" = true →
  save_fault E (upload_path E file) (UploadFile.file file) = None →
  (transcribe_audio_endpoint E G file w).1
    = (transcription_result ←
         (transcribe_audio E G (upload_path E file)
            (set_fs <[upload_path E file := UploadFile.file file]> w)).1;
       transcription_response file transcription_result) ∧
  fs (transcribe_audio_endpoint E G file w).2 !! upload_path E file = None ∧
  ∀ p, p ≠ upload_path E file →
       fs (transcribe_audio_endpoint E G file w).2 !! p = fs w !! p.
Proof.
  intros Htype Haudio Hsave.
  rewrite (endpoint_run E G file content_type w Htype Haudio Hsave).
  split; [reflexivity|]. split.
  - apply lookup_delete_eq.
  - intros p Hp. simpl. rewrite lookup_delete_ne by congruence.
    apply lookup_insert_ne. congruence.
Qed.

Lemma upload_removed_on_every_path_witness :
  fs (transcribe_audio_endpoint Sample.env Sample.globals Sample.upload Sample.world).2
    !! upload_path Sample.env Sample.upload = None.
Proof.
  exact (proj1 (proj2 (upload_removed_on_every_path
                         Sample.env Sample.globals Sample.upload "audio/mpeg"
                         Sample.world eq_refl eq_refl eq_refl))).
Defined.

(** C4: the code departs from the claim. An upload with an audio content
    type is accepted; when the disk is full, [open] creates the file, the copy
    fails, and the handler of line 140 answers 500 without removing it: the
    uniquely named file is still in the upload directory after the response.
    The cleanup of lines 154-162 covers transcription only. *)
Theorem failed_save_leaves_upload :
  UploadFile.content_type Sample.upload = Some "audio/mpeg" ∧
  Py.startswith "audio/mpeg" "audio/" = true ∧
  Sample.world.(fs) !! upload_path Sample.full_disk_env Sample.upload = None ∧
  (transcribe_audio_endpoint Sample.full_disk_env Sample.globals Sample.upload
     Sample.world).1
  = Raises (HTTPException 500 "Error saving file: [Errno 28] No space left on device") ∧
  fs (transcribe_audio_endpoint Sample.full_disk_env Sample.globals Sample.upload
        Sample.world).2
    !! upload_path Sample.full_disk_env Sample.upload = Some "".
Proof. repeat split; vm_compute; reflexivity. Qed.

(** ** Startup and the transcription key (lines 29-31 and 57-71) *)


Lemma transcribe_audio_mock (E : Env) (G : Globals) (file_path : string) (w : World) :
  Py.falsy (DEEPGRAM_API_KEY G) = true →
  transcribe_audio E G file_path w = (Returns mock_transcription, w).
Proof. intros Hkey. unfold transcribe_audio. rewrite Hkey. reflexivity. Qed.




(** ** The summary generator and its endpoint (lines 164-270) *)

Section Summary.

Variable E : Env.
Variable G : Globals.

Lemma generate_bullet_summary_stub transcript w :
  llm_client G = None →
  generate_bullet_summary E G transcript w = (Returns mock_summary, w).
Proof. intros Hc. unfold generate_bullet_summary. rewrite Hc. reflexivity. Qed.

(** With a client, the summary is the content of the first choice, or the
    text of the error; the request has been sent in both cases. *)
Lemma generate_bullet_summary_live client transcript w :
  llm_client G = Some client →
  generate_bullet_summary E G transcript w =
    (Returns
       match choices ← chat_completions_create E client (summary_request transcript);
             Py.first choices with
       | Returns summary => summary
       | Raises e => "Error generating summary: " +:+ Py.str_of_exn e
       end,
     sent (summary_request transcript) w).
Proof.
  intros Hc. unfold generate_bullet_summary. rewrite Hc.
  unfold try_except, chat_completion.
  destruct (_ ← chat_completions_create E client (summary_request transcript); _);
    reflexivity.
Qed.

Lemma generate_bullet_summary_returns transcript w :
  ∃ summary w', generate_bullet_summary E G transcript w = (Returns summary, w').
Proof.
  destruct (llm_client G) as [client|] eqn:Hc.
  - rewrite (generate_bullet_summary_live client) by exact Hc. eauto.
  - rewrite generate_bullet_summary_stub by exact Hc. eauto.
Qed.

(** A request with a transcript gets the summary of the truncated
    transcript in a response with [success] set. *)
Lemma generate_summary_endpoint_ok request w summary w' :
  SummaryRequest.transcript request ≠ "" →
  generate_bullet_summary E G
    (truncate_transcript (SummaryRequest.transcript request)) w = (Returns summary, w') →
  generate_summary_endpoint E G request w = (Returns (summary_response summary), w').
Proof.
  intros Hne Hgen. unfold generate_summary_endpoint, require_transcript.
  apply String.eqb_neq in Hne. rewrite Hne.
  run. rewrite Hgen. reflexivity.
Qed.

End Summary.



(** ** Truncation (lines 258-261 and 420-423) *)

Lemma slice_to_all (n : nat) (s : string) :
  String.length s ≤ n → Py.slice_to n s = s.
Proof.
  revert n. induction s as [|c s IH]; intros [|n] Hn; simpl in *;
    try reflexivity; try lia.
  f_equal. apply IH. lia.
Qed.

(** [s[:n]] is the first [n] characters of a string that has that many. *)
Lemma slice_to_split (n : nat) (s : string) :
  n ≤ String.length s →
  ∃ rest, s = Py.slice_to n s +:+ rest ∧ String.length (Py.slice_to n s) = n.
Proof.
  revert n. induction s as [|c s IH]; intros [|n] Hn; simpl in *.
  - exists EmptyString. split; reflexivity.
  - lia.
  - exists (String c s). split; reflexivity.
  - destruct (IH n) as (rest & Hs & Hlen); [lia|].
    exists rest. split; [|f_equal; exact Hlen].
    change (String c s = String c (Py.slice_to n s +:+ rest)). f_equal. exact Hs.
Qed.

Lemma truncate_transcript_short (transcript : string) :
  (Py.len_str transcript ≤ 16000)%Z → truncate_transcript transcript = transcript.
Proof.
  intros Hlen. unfold truncate_transcript, max_length, Py.len_str in *.
  destruct (Z.ltb_spec 16000 (Z.of_nat (String.length transcript))); [lia|].
  apply slice_to_all. lia.
Qed.

Lemma truncate_transcript_long (transcript : string) :
  (16000 < Py.len_str transcript)%Z →
  ∃ head rest,
    transcript = head +:+ rest ∧ Py.len_str head = 16000%Z ∧
    truncate_transcript transcript = head +:+ truncation_marker.
Proof.
  intros Hlen. unfold truncate_transcript, max_length, Py.len_str in *.
  destruct (Z.ltb_spec 16000 (Z.of_nat (String.length transcript))); [|lia].
  destruct (slice_to_split (Z.to_nat 16000) transcript) as (rest & Hs & Hl); [lia|].
  exists (Py.slice_to (Z.to_nat 16000) transcript), rest.
  split; [exact Hs|]. split; [rewrite Hl; lia | reflexivity].
Qed.

Example truncate_transcript_16000 :
  truncate_transcript (Sample.letters (Z.to_nat 16000)) = Sample.letters (Z.to_nat 16000).
Proof. vm_compute. reflexivity. Qed.

Example truncate_transcript_16001 :
  truncate_transcript (Sample.letters (Z.to_nat 16001))
  = Sample.letters (Z.to_nat 16000) +:+ truncation_marker.
Proof. vm_compute. reflexivity. Qed.

(** ** The quiz generator always returns (lines 272-394) *)

Section Quiz.

Variable E : Env.
Variable G : Globals.

Lemma parse_quiz_eq quiz_text :
  parse_quiz E quiz_text =
    Returns match normalize_quiz E quiz_text with
            | Returns questions => questions
            | Raises e => [parse_error_question e]
            end.
Proof. unfold parse_quiz, try_except_pure. destruct (normalize_quiz E quiz_text); reflexivity. Qed.

Lemma generate_quiz_questions_stub transcript num_questions w :
  llm_client G = None →
  generate_quiz_questions E G transcript num_questions w = (Returns mock_questions, w).
Proof. intros Hc. unfold generate_quiz_questions. rewrite Hc. reflexivity. Qed.

(** With a client, the request is sent; the questions are those of the
    decoded answer, or the one question that reports the failure. *)
Lemma generate_quiz_questions_live client transcript num_questions w :
  llm_client G = Some client →
  generate_quiz_questions E G transcript num_questions w =
    (Returns
       match choices ← chat_completions_create E client
                         (quiz_request transcript num_questions);
             Py.first choices with
       | Returns quiz_text =>
           match normalize_quiz E quiz_text with
           | Returns questions => questions
           | Raises e => [parse_error_question e]
           end
       | Raises e => [generation_error_question e]
       end,
     sent (quiz_request transcript num_questions) w).
Proof.
  intros Hc. unfold generate_quiz_questions. rewrite Hc.
  unfold try_except, chat_completion, mbind at 1, M_bind at 1.
  destruct (_ ← chat_completions_create E client _; _) as [quiz_text|e];
    [|reflexivity].
  rewrite parse_quiz_eq. reflexivity.
Qed.

Lemma generate_quiz_questions_returns transcript num_questions w :
  ∃ questions w',
    generate_quiz_questions E G transcript num_questions w = (Returns questions, w').
Proof.
  destruct (llm_client G) as [client|] eqn:Hc.
  - rewrite (generate_quiz_questions_live client) by exact Hc. eauto.
  - rewrite generate_quiz_questions_stub by exact Hc. eauto.
Qed.

(** A request with a transcript and a number gets the questions generated
    for the truncated transcript and the clamped number. *)
Lemma generate_quiz_endpoint_ok request n w questions w' :
  QuizRequest.transcript request ≠ "" →
  QuizRequest.num_questions request = Some n →
  generate_quiz_questions E G
    (truncate_transcript (QuizRequest.transcript request))
    (Z.max 1 (Z.min n 10)) w = (Returns questions, w') →
  generate_quiz_endpoint E G request w = (Returns (quiz_response questions), w').
Proof.
  intros Hne Hn Hgen. unfold generate_quiz_endpoint, require_transcript.
  apply String.eqb_neq in Hne. rewrite Hne, Hn.
  run. rewrite Hgen. reflexivity.
Qed.

End Quiz.

(** ** The endpoints *)

Lemma len_str_nonempty (s : string) : (0 < Py.len_str s)%Z → s ≠ "".
Proof. intros Hlen ->. unfold Py.len_str in Hlen. simpl in Hlen. lia. Qed.

(** C2: the code departs from the claim. A request whose transcript is the
    empty string is answered with status 500 by both endpoints, not 400: the
    [HTTPException] with status 400 is raised inside the [try] whose handler
    catches every [Exception] and raises status 500 in its place. *)
Theorem empty_transcript_answers_500 (E : Env) (G : Globals) (w : World) (n : option Z) :
  (∃ detail,
     generate_summary_endpoint E G {| SummaryRequest.transcript := "" |} w
     = (Raises (HTTPException 500 detail), w)) ∧
  (∃ detail,
     generate_quiz_endpoint E G
       {| QuizRequest.transcript := ""; QuizRequest.num_questions := n |} w
     = (Raises (HTTPException 500 detail), w)) ∧
  http_status (generate_summary_endpoint E G {| SummaryRequest.transcript := "" |} w).1
    = 500%Z ∧
  http_status
    (generate_quiz_endpoint E G
       {| QuizRequest.transcript := ""; QuizRequest.num_questions := n |} w).1
    = 500%Z.
Proof. repeat split; try (eexists; reflexivity); reflexivity. Qed.

(** C8. In both endpoints a transcript of exactly 16,000 characters is
    passed to the generator as it is, and a transcript of 16,001 characters or
    more is passed as its first 16,000 characters followed by the truncation
    marker; with an LLM client, the request sent to the provider is the one
    built from the transcript so passed. *)
Theorem truncation_boundary (E : Env) (G : Globals) (transcript : string) (n : Z) (w : World) :
  (16000 ≤ Py.len_str transcript)%Z →
  ∃ passed : string,
    (Py.len_str transcript = 16000%Z → passed = transcript) ∧
    ((16001 ≤ Py.len_str transcript)%Z →
       ∃ head rest,
         transcript = head +:+ rest ∧ Py.len_str head = 16000%Z ∧
         passed = head +:+ truncation_marker) ∧
    (∃ summary w',
       generate_bullet_summary E G passed w = (Returns summary, w') ∧
       generate_summary_endpoint E G {| SummaryRequest.transcript := transcript |} w
         = (Returns (summary_response summary), w')) ∧
    (∃ questions w',
       generate_quiz_questions E G passed (Z.max 1 (Z.min n 10)) w
         = (Returns questions, w') ∧
       generate_quiz_endpoint E G
           {| QuizRequest.transcript := transcript;
              QuizRequest.num_questions := Some n |} w
         = (Returns (quiz_response questions), w')) ∧
    (∀ client,
       llm_client G = Some client →
       llm_requests
         (generate_summary_endpoint E G
            {| SummaryRequest.transcript := transcript |} w).2
         = llm_requests w ++ [summary_request passed] ∧
       llm_requests
         (generate_quiz_endpoint E G
            {| QuizRequest.transcript := transcript;
               QuizRequest.num_questions := Some n |} w).2
         = llm_requests w ++ [quiz_request passed (Z.max 1 (Z.min n 10))]).
Proof.
  intros Hlen.
  assert (Hne : transcript ≠ "") by (apply len_str_nonempty; lia).
  exists (truncate_transcript transcript).
  destruct (generate_bullet_summary_returns E G (truncate_transcript transcript) w)
    as (summary & ws & Hs).
  destruct (generate_quiz_questions_returns E G (truncate_transcript transcript)
              (Z.max 1 (Z.min n 10)) w) as (questions & wq & Hq).
  pose proof (generate_summary_endpoint_ok E G
                {| SummaryRequest.transcript := transcript |} w summary ws Hne Hs) as Hse.
  pose proof (generate_quiz_endpoint_ok E G
                {| QuizRequest.transcript := transcript;
                   QuizRequest.num_questions := Some n |} n w questions wq
                Hne eq_refl Hq) as Hqe.
  repeat split.
  - intros H16. apply truncate_transcript_short. lia.
  - intros H17. apply truncate_transcript_long. lia.
  - eauto.
  - eauto.
  - rewrite Hse. simpl.
    rewrite (generate_bullet_summary_live E G client) in Hs by assumption.
    injection Hs as _ <-. reflexivity.
  - rewrite Hqe. simpl.
    rewrite (generate_quiz_questions_live E G client) in Hq by assumption.
    injection Hq as _ <-. reflexivity.
Qed.

Lemma truncation_boundary_witness :
  ∃ passed : string,
    (Py.len_str (Sample.letters (Z.to_nat 16001)) = 16000%Z →
     passed = Sample.letters (Z.to_nat 16001)) ∧
    ((16001 ≤ Py.len_str (Sample.letters (Z.to_nat 16001)))%Z →
       ∃ head rest,
         Sample.letters (Z.to_nat 16001) = head +:+ rest ∧
         Py.len_str head = 16000%Z ∧
         passed = head +:+ truncation_marker) ∧
    (∃ summary w',
       generate_bullet_summary Sample.env Sample.globals passed Sample.world
         = (Returns summary, w') ∧
       generate_summary_endpoint Sample.env Sample.globals
           {| SummaryRequest.transcript := Sample.letters (Z.to_nat 16001) |} Sample.world
         = (Returns (summary_response summary), w')) ∧
    (∃ questions w',
       generate_quiz_questions Sample.env Sample.globals passed
           (Z.max 1 (Z.min 5 10)) Sample.world
         = (Returns questions, w') ∧
       generate_quiz_endpoint Sample.env Sample.globals
           {| QuizRequest.transcript := Sample.letters (Z.to_nat 16001);
              QuizRequest.num_questions := Some 5%Z |} Sample.world
         = (Returns (quiz_response questions), w')) ∧
    (∀ client,
       llm_client Sample.globals = Some client →
       llm_requests
         (generate_summary_endpoint Sample.env Sample.globals
            {| SummaryRequest.transcript := Sample.letters (Z.to_nat 16001) |}
            Sample.world).2
         = llm_requests Sample.world ++ [summary_request passed] ∧
       llm_requests
         (generate_quiz_endpoint Sample.env Sample.globals
            {| QuizRequest.transcript := Sample.letters (Z.to_nat 16001);
               QuizRequest.num_questions := Some 5%Z |} Sample.world).2
         = llm_requests Sample.world ++ [quiz_request passed (Z.max 1 (Z.min 5 10))]).
Proof.
  apply (truncation_boundary Sample.env Sample.globals
           (Sample.letters (Z.to_nat 16001)) 5 Sample.world).
  vm_compute. discriminate.
Defined.

(** C9. For every integer [num_questions] of a quiz request, the number
    passed to the quiz generator is [num_questions] clamped to the range from
    1 to 10; 0 becomes 1, 15 becomes 10 and -1 becomes 1. With an LLM client
    the clamped number is the one of the request sent to the provider. *)
Theorem num_questions_clamped (E : Env) (G : Globals) (request : QuizRequest.t) (n : Z) (w : World) :
  QuizRequest.transcript request ≠ "" →
  QuizRequest.num_questions request = Some n →
  ∃ k : Z,
    clamp_num_questions (Some n) = Returns k ∧
    (1 ≤ k ≤ 10)%Z ∧
    ((n ≤ 1)%Z → k = 1%Z) ∧ ((10 ≤ n)%Z → k = 10%Z) ∧ ((1 ≤ n ≤ 10)%Z → k = n) ∧
    (∃ questions w',
       generate_quiz_questions E G
         (truncate_transcript (QuizRequest.transcript request)) k w
         = (Returns questions, w') ∧
       generate_quiz_endpoint E G request w = (Returns (quiz_response questions), w')) ∧
    (∀ client,
       llm_client G = Some client →
       llm_requests (generate_quiz_endpoint E G request w).2
         = llm_requests w
           ++ [quiz_request (truncate_transcript (QuizRequest.transcript request)) k]) ∧
    clamp_num_questions (Some 0%Z) = Returns 1%Z ∧
    clamp_num_questions (Some 15%Z) = Returns 10%Z ∧
    clamp_num_questions (Some (-1)%Z) = Returns 1%Z.
Proof.
  intros Hne Hn. exists (Z.max 1 (Z.min n 10)).
  destruct (generate_quiz_questions_returns E G
              (truncate_transcript (QuizRequest.transcript request))
              (Z.max 1 (Z.min n 10)) w) as (questions & wq & Hq).
  pose proof (generate_quiz_endpoint_ok E G request n w questions wq Hne Hn Hq) as Hqe.
  split; [reflexivity|]. split; [lia|].
  split; [lia|]. split; [lia|]. split; [lia|].
  split; [eauto|]. split; [|repeat split; reflexivity].
  intros client Hc. rewrite Hqe. simpl.
  rewrite (generate_quiz_questions_live E G client) in Hq by assumption.
  injection Hq as _ <-. reflexivity.
Qed.

Lemma num_questions_clamped_witness :
  ∃ k : Z,
    clamp_num_questions (Some 15%Z) = Returns k ∧
    (1 ≤ k ≤ 10)%Z ∧
    ((15 ≤ 1)%Z → k = 1%Z) ∧ ((10 ≤ 15)%Z → k = 10%Z) ∧ ((1 ≤ 15 ≤ 10)%Z → k = 15%Z) ∧
    (∃ questions w',
       generate_quiz_questions Sample.env Sample.globals (truncate_transcript "hello") k
         Sample.world
         = (Returns questions, w') ∧
       generate_quiz_endpoint Sample.env Sample.globals
           {| QuizRequest.transcript := "hello"; QuizRequest.num_questions := Some 15%Z |}
           Sample.world
         = (Returns (quiz_response questions), w')) ∧
    (∀ client,
       llm_client Sample.globals = Some client →
       llm_requests
         (generate_quiz_endpoint Sample.env Sample.globals
            {| QuizRequest.transcript := "hello"; QuizRequest.num_questions := Some 15%Z |}
            Sample.world).2
         = llm_requests Sample.world ++ [quiz_request (truncate_transcript "hello") k]) ∧
    clamp_num_questions (Some 0%Z) = Returns 1%Z ∧
    clamp_num_questions (Some 15%Z) = Returns 10%Z ∧
    clamp_num_questions (Some (-1)%Z) = Returns 1%Z.
Proof.
  apply (num_questions_clamped Sample.env Sample.globals
           {| QuizRequest.transcript := "hello"; QuizRequest.num_questions := Some 15%Z |}
           15 Sample.world); [discriminate | reflexivity].
Defined.

(** C10. A quiz request whose body sets [num_questions] to null is accepted
    with [num_questions = None]; clamping then raises [TypeError], which the
    handler turns into status 500, and the default of 5 is not applied. The
    default is applied when the body has no [num_questions] field: the
    generator is then called with 5. *)
Theorem null_num_questions_answers_500 (E : Env) (G : Globals) (transcript : string) (w : World) :
  transcript ≠ "" →
  QuizRequest.num_questions (QuizRequest.of_body transcript QuizRequest.Null) = None ∧
  clamp_num_questions None
    = Raises (PyExc "TypeError" "'<' not supported between instances of 'int' and 'NoneType'") ∧
  generate_quiz_endpoint E G (QuizRequest.of_body transcript QuizRequest.Null) w
    = (Raises (HTTPException 500
                 "Error generating quiz: '<' not supported between instances of 'int' and 'NoneType'"),
       w) ∧
  http_status
    (generate_quiz_endpoint E G (QuizRequest.of_body transcript QuizRequest.Null) w).1
    = 500%Z ∧
  ∃ questions w',
    generate_quiz_questions E G (truncate_transcript transcript) 5 w
      = (Returns questions, w') ∧
    generate_quiz_endpoint E G (QuizRequest.of_body transcript QuizRequest.Omitted) w
      = (Returns (quiz_response questions), w').
Proof.
  intros Hne.
  assert (Hnull :
    generate_quiz_endpoint E G (QuizRequest.of_body transcript QuizRequest.Null) w
    = (Raises (HTTPException 500
                 "Error generating quiz: '<' not supported between instances of 'int' and 'NoneType'"),
       w)).
  { unfold generate_quiz_endpoint, require_transcript. simpl.
    apply String.eqb_neq in Hne. rewrite Hne. reflexivity. }
  split; [reflexivity|]. split; [reflexivity|]. split; [exact Hnull|].
  split; [rewrite Hnull; reflexivity|].
  destruct (generate_quiz_questions_returns E G (truncate_transcript transcript) 5 w)
    as (questions & wq & Hq).
  exists questions, wq. split; [exact Hq|].
  apply (generate_quiz_endpoint_ok E G
           (QuizRequest.of_body transcript QuizRequest.Omitted) 5 w questions wq);
    [exact Hne | reflexivity | exact Hq].
Qed.

Lemma null_num_questions_answers_500_witness :
  http_status
    (generate_quiz_endpoint Sample.env Sample.globals
       (QuizRequest.of_body "hello" QuizRequest.Null) Sample.world).1
  = 500%Z.
Proof.
  apply (null_num_questions_answers_500 Sample.env Sample.globals "hello" Sample.world).
  discriminate.
Defined.

(** ** Normalization of the answer of the LLM (lines 350-389) *)

Lemma dict_get_set_same (k : string) (v : pyval) (d : list (string * pyval)) :
  Py.dict_get k (Py.dict_set k v d) = Some v.
Proof.
  induction d as [|[k' v'] d IH]; simpl.
  - rewrite String.eqb_refl. reflexivity.
  - destruct (String.eqb k' k) eqn:Hk; simpl; rewrite Hk; [reflexivity|exact IH].
Qed.

Lemma repaired_valid_when_options (q : pyval) : repaired q → valid_when_options q.
Proof.
  intros [Hv|Hz] options size Hopts Hlen Hpos; [exact Hv|].
  unfold valid_index. rewrite Hz, Hopts. simpl. rewrite Hlen.
  apply Z.ltb_lt. exact Hpos.
Qed.

Lemma answer_invalid_false (q : pyval) :
  answer_invalid q = Returns false → valid_index q = true.
Proof.
  unfold answer_invalid, valid_index, mbind, outcome_bind.
  destruct (Py.getitem q "correct_answer") as [answer|]; [|discriminate].
  destruct (Py.as_int answer) as [n|]; [|discriminate].
  destruct (Z.ltb_spec n 0); [discriminate|].
  destruct (Py.getitem q "options") as [options|]; [|discriminate].
  destruct (Py.len options) as [size|]; [|discriminate].
  intros [= Hsize]. apply Z.leb_gt in Hsize.
  apply andb_true_intro. split; [apply Z.leb_le | apply Z.ltb_lt]; lia.
Qed.

Lemma setitem_getitem (q q' : pyval) (k : string) (v : pyval) :
  Py.setitem q k v = Returns q' → Py.getitem q' k = Returns v.
Proof.
  destruct q; try discriminate. intros [= <-]. simpl.
  rewrite dict_get_set_same. reflexivity.
Qed.

Lemma validate_question_repaired (q q' : pyval) :
  validate_question q = Returns (Some q') → repaired q'.
Proof.
  unfold validate_question, mbind, outcome_bind.
  destruct (Py.contains "question" q) as [[]|]; try discriminate.
  destruct (Py.contains "options" q) as [[]|]; try discriminate.
  destruct (Py.contains "correct_answer" q) as [[]|]; try discriminate.
  simpl negb. cbv iota.
  destruct (coerce_answer q) as [q1|]; [|discriminate].
  destruct (answer_invalid q1) as [[]|] eqn:Hinv; [| |discriminate].
  - destruct (Py.setitem q1 "correct_answer" (PyInt 0)) as [q2|] eqn:Hset;
      [|discriminate].
    intros [= <-]. right. exact (setitem_getitem _ _ _ _ Hset).
  - intros [= <-]. left. exact (answer_invalid_false _ Hinv).
Qed.







(** Stub mode: the two mock questions, whatever number is asked for, and
    the mock summary. *)
Example stub_mode_sample :
  generate_quiz_endpoint Sample.env Sample.stub_globals
    {| QuizRequest.transcript := "hello"; QuizRequest.num_questions := Some 3%Z |}
    Sample.world
  = (Returns (quiz_response mock_questions), Sample.world) ∧
  generate_summary_endpoint Sample.env Sample.stub_globals
    {| SummaryRequest.transcript := "hello" |} Sample.world
  = (Returns (summary_response mock_summary), Sample.world).
Proof. split; reflexivity. Qed.

(** *** The three shapes of an answer (lines 355-368) *)

Lemma extract_questions_array (items : list pyval) :
  extract_questions (PyList items) = Returns (PyList items).
Proof. reflexivity. Qed.

Lemma extract_questions_key (d : list (string * pyval)) (value : pyval) :
  Py.dict_get "questions" d = Some value →
  extract_questions (PyDict d) = Returns value.
Proof. intros Hq. unfold extract_questions, Py.getitem. rewrite Hq. reflexivity. Qed.

Lemma first_array_found (before after : list (string * pyval)) (key : string) (value : pyval) :
  Forall (λ entry, nonempty_array entry.2 = false) before →
  nonempty_array value = true →
  first_array (before ++ (key, value) :: after) = Returns value.
Proof.
  intros Hbefore Hvalue. induction Hbefore as [|[k v] before Hv _ IH]; simpl.
  - rewrite Hvalue. reflexivity.
  - simpl in Hv. rewrite Hv. exact IH.
Qed.


Lemma extract_questions_other_key
    (before after : list (string * pyval)) (key : string) (value : pyval) :
  Py.dict_get "questions" (before ++ (key, value) :: after) = None →
  Forall (λ entry, nonempty_array entry.2 = false) before →
  nonempty_array value = true →
  extract_questions (PyDict (before ++ (key, value) :: after)) = Returns value.
Proof.
  intros Hq Hbefore Hvalue. unfold extract_questions. rewrite Hq.
  apply first_array_found; assumption.
Qed.

Lemma extract_questions_scalar (quiz_data : pyval) :
  Py.isinstance_dict quiz_data = false →
  Py.isinstance_list quiz_data = false →
  ∃ e, extract_questions quiz_data = Raises e.
Proof. destruct quiz_data; simpl; try discriminate; eauto. Qed.

(** Whatever the inner [try] raises becomes the one question that reports
    it: a text that is not JSON, an answer without an array. *)
Lemma parse_quiz_failure (E : Env) (quiz_text : string) (e : exn) :
  normalize_quiz E quiz_text = Raises e →
  parse_quiz E quiz_text = Returns [parse_error_question e].
Proof. intros He. rewrite parse_quiz_eq, He. reflexivity. Qed.

Lemma parse_quiz_not_json (E : Env) (quiz_text : string) (e : exn) :
  json_loads E quiz_text = Raises e →
  parse_quiz E quiz_text = Returns [parse_error_question e].
Proof.
  intros He. apply parse_quiz_failure. unfold normalize_quiz. rewrite He. reflexivity.
Qed.


(** C6: the code departs from the claim. An answer that is an object whose
    [questions] key holds a string has no array to be found, yet the quiz is
    not the single question that reports the failure: the value of the key is
    taken without a check of its type, its characters are run over as the
    questions, each is skipped, and the empty list is returned. *)
Theorem questions_key_without_array :
  json_loads (Sample.llm_env Sample.no_array_text Sample.no_array_data)
    Sample.no_array_text = Returns (PyDict [("questions", PyStr "none")]) ∧
  extract_questions (PyDict [("questions", PyStr "none")]) = Returns (PyStr "none") ∧
  parse_quiz (Sample.llm_env Sample.no_array_text Sample.no_array_data)
    Sample.no_array_text = Returns [] ∧
  generate_quiz_questions
    (Sample.llm_env Sample.no_array_text Sample.no_array_data)
    Sample.globals "hello" 5 Sample.world
  = (Returns [], sent (quiz_request "hello" 5) Sample.world).
Proof. repeat split; vm_compute; reflexivity. Qed.

(** *** Validation of a question (lines 372-383) *)

Lemma validate_question_missing_field (d : list (string * pyval)) :
  Py.dict_get "question" d = None ∨
  Py.dict_get "options" d = None ∨
  Py.dict_get "correct_answer" d = None →
  validate_question (PyDict d) = Returns None.
Proof.
  intros Hmissing. unfold validate_question, Py.contains, mbind, outcome_bind.
  destruct (Py.dict_get "question" d); [|reflexivity].
  destruct (Py.dict_get "options" d); [|reflexivity].
  destruct (Py.dict_get "correct_answer" d); [|reflexivity].
  destruct Hmissing as [H|[H|H]]; discriminate H.
Qed.

Lemma validate_questions_skip (q : pyval) (rest : list pyval) :
  validate_question q = Returns None →
  validate_questions (q :: rest) = validate_questions rest.
Proof.
  intros Hq. simpl. rewrite Hq. unfold mbind, outcome_bind.
  destruct (validate_questions rest); reflexivity.
Qed.

Lemma is_decimal_is_digit (s : string) :
  Py.all_chars Py.is_decimal s = true → Py.all_chars Py.is_digit s = true.
Proof.
  induction s as [|c s IH]; simpl; [reflexivity|].
  intros [Hc Hs]%andb_prop. unfold Py.is_digit. rewrite Hc. simpl. exact (IH Hs).
Qed.

Lemma leading_decimals_all (s : string) :
  Py.all_chars Py.is_decimal s = true → Py.leading_decimals s = String.length s.
Proof.
  induction s as [|c s IH]; simpl; [reflexivity|].
  intros [Hc Hs]%andb_prop. rewrite Hc, (IH Hs). reflexivity.
Qed.

(** A string of decimal digits, of at most 4300, becomes the integer it
    denotes. *)
Lemma coerce_answer_decimal (d : list (string * pyval)) (s : string) :
  Py.dict_get "correct_answer" d = Some (PyStr s) →
  s ≠ "" →
  Py.all_chars Py.is_decimal s = true →
  String.length s ≤ Py.max_str_digits →
  coerce_answer (PyDict d)
  = Returns (PyDict (Py.dict_set "correct_answer" (PyInt (Py.decimal_value 0 s)) d)).
Proof.
  intros Hget Hne Hdec Hlen. unfold coerce_answer, Py.getitem, mbind, outcome_bind.
  rewrite Hget. unfold Py.isdigit, Py.int_of_str.
  rewrite (leading_decimals_all s Hdec).
  destruct (Nat.ltb_spec Py.max_str_digits (String.length s)); [lia|].
  destruct s as [|c s]; [congruence|].
  rewrite (is_decimal_is_digit _ Hdec), Hdec. reflexivity.
Qed.

Example coerce_answer_two :
  validate_question
    (Sample.raw_question "What is x squared?" ["x"; "2x"; "x*x"; "x+2"] (PyStr "2"))
  = Returns (Some (Sample.raw_question "What is x squared?" ["x"; "2x"; "x*x"; "x+2"]
                     (PyInt 2))).
Proof. reflexivity. Qed.

(** An answer that is not an integer, and not a string of digits, is
    replaced by 0. *)
Lemma validate_question_not_integer (d : list (string * pyval)) (text options answer : pyval) :
  Py.dict_get "question" d = Some text →
  Py.dict_get "options" d = Some options →
  Py.dict_get "correct_answer" d = Some answer →
  Py.as_int answer = None →
  (∀ s, answer = PyStr s → Py.isdigit s = false) →
  validate_question (PyDict d)
  = Returns (Some (PyDict (Py.dict_set "correct_answer" (PyInt 0) d))).
Proof.
  intros Hq Ho Ha Hint Hstr.
  unfold validate_question, Py.contains, mbind, outcome_bind.
  rewrite Hq, Ho, Ha. simpl negb. cbv iota.
  assert (Hco : coerce_answer (PyDict d) = Returns (PyDict d)).
  { unfold coerce_answer, Py.getitem, mbind, outcome_bind. rewrite Ha.
    destruct answer; try reflexivity. rewrite (Hstr s eq_refl). reflexivity. }
  rewrite Hco. unfold answer_invalid, Py.getitem, mbind, outcome_bind.
  rewrite Ha, Hint. reflexivity.
Qed.

(** An integer that is not an index of the options is replaced by 0. *)
Lemma validate_question_out_of_range
    (d : list (string * pyval)) (text options answer : pyval) (n size : Z) :
  Py.dict_get "question" d = Some text →
  Py.dict_get "options" d = Some options →
  Py.dict_get "correct_answer" d = Some answer →
  Py.as_int answer = Some n →
  Py.len options = Returns size →
  (n < 0 ∨ size ≤ n)%Z →
  validate_question (PyDict d)
  = Returns (Some (PyDict (Py.dict_set "correct_answer" (PyInt 0) d))).
Proof.
  intros Hq Ho Ha Hint Hlen Hrange.
  unfold validate_question, Py.contains, mbind, outcome_bind.
  rewrite Hq, Ho, Ha. simpl negb. cbv iota.
  assert (Hco : coerce_answer (PyDict d) = Returns (PyDict d)).
  { unfold coerce_answer, Py.getitem, mbind, outcome_bind. rewrite Ha.
    destruct answer; try reflexivity; discriminate Hint. }
  rewrite Hco. unfold answer_invalid, Py.getitem, mbind, outcome_bind.
  rewrite Ha, Hint, Ho, Hlen.
  destruct (Z.ltb_spec n 0); [reflexivity|].
  destruct (Z.leb_spec size n); [reflexivity|lia].
Qed.

Lemma validate_questions_app (a b : list pyval) :
  validate_questions (a ++ b)
  = (validated_a ← validate_questions a;
     validated_b ← validate_questions b;
     Returns (validated_a ++ validated_b)).
Proof.
  induction a as [|q a IH]; simpl.
  - unfold mbind, outcome_bind. destruct (validate_questions b); reflexivity.
  - rewrite IH. unfold mbind, outcome_bind.
    destruct (validate_question q) as [[q'|]|]; [| |reflexivity];
      destruct (validate_questions a); try reflexivity;
      destruct (validate_questions b); reflexivity.
Qed.



(** C7: the code departs from the claim. A question whose [correct_answer]
    is the string of a superscript two has all three fields and an answer
    that is not a valid integer, yet it is not kept with the answer set to 0:
    [isdigit()] holds of the string, [int()] raises [ValueError] on it, and
    the whole quiz becomes the single question that reports the error. An
    element of the array that is not an object (here [null]) is not skipped
    either: the test for its fields raises [TypeError], with the same end. *)
Theorem invalid_answer_discards_quiz :
  Py.isdigit Sample.superscript_two = true ∧
  (∃ msg, Py.int_of_str Sample.superscript_two = Raises (PyExc "ValueError" msg)) ∧
  (∃ msg,
     (generate_quiz_questions
        (Sample.llm_env Sample.superscript_text Sample.superscript_data)
        Sample.globals "hello" 5 Sample.world).1
     = Returns [parse_error_question (PyExc "ValueError" msg)]) ∧
  (∃ msg, validate_question PyNone = Raises (PyExc "TypeError" msg)) ∧
  (∃ msg,
     (generate_quiz_questions
        (Sample.llm_env Sample.null_element_text Sample.null_element_data)
        Sample.globals "hello" 5 Sample.world).1
     = Returns [parse_error_question (PyExc "TypeError" msg)]).
Proof.
  split; [reflexivity|].
  split; [eexists; reflexivity|].
  split.
  { exists ("invalid literal for int() with base 10: "
            +:+ Py.quoted Sample.superscript_two).
    vm_compute. reflexivity. }
  split; [eexists; reflexivity|].
  exists "argument of type 'NoneType' is not iterable". vm_compute. reflexivity.
Qed.

(** * Further properties of the handlers *)

(** ** Strings *)




Lemma length_append (a b : string) :
  String.length (a +:+ b) = String.length a + String.length b.
Proof. induction a as [|c a IH]; simpl; [reflexivity|]. rewrite IH. reflexivity. Qed.


Lemma slice_to_append (a b : string) :
  Py.slice_to (String.length a) (a +:+ b) = a.
Proof. induction a as [|c a IH]; simpl; [destruct b; reflexivity|]. rewrite IH. reflexivity. Qed.



(** ** [os.path.splitext] *)



(** ** The transcribe endpoint (lines 122-162) *)




Lemma getitem_raises (v : pyval) (k : string) (e : exn) :
  Py.getitem v k = Raises e → ∃ cls msg, e = PyExc cls msg.
Proof.
  destruct v; simpl; try (intros [= <-]; eauto).
  destruct (Py.dict_get k entries); [discriminate|]. intros [= <-]. eauto.
Qed.

Lemma transcription_response_status (file : UploadFile.t) (result : pyval) :
  http_status (transcription_response file result) = 200%Z ∨
  http_status (transcription_response file result) = 500%Z.
Proof.
  unfold transcription_response, mbind, outcome_bind.
  destruct (Py.getitem result "transcript") as [t|e] eqn:Ht.
  - destruct (Py.getitem result "sentences") as [s|e] eqn:Hs; [left; reflexivity|].
    destruct (getitem_raises _ _ _ Hs) as (cls & msg & ->). right. reflexivity.
  - destruct (getitem_raises _ _ _ Ht) as (cls & msg & ->). right. reflexivity.
Qed.

(** X2. With the transcription key set, [transcribe_audio] either returns an
    object with the transcript and the list of sentences, or raises an
    [HTTPException] of status 500 whose detail is "Error during
    transcription: " followed by the text of the error (a missing file, an
    error of the provider, a response without channel or alternative); it
    changes neither the upload directory nor anything else. *)
Theorem transcribe_audio_outcome (E : Env) (G : Globals) (file_path : string) (w : World) :
  Py.falsy (DEEPGRAM_API_KEY G) = false →
  (∃ transcript sentences,
     transcribe_audio E G file_path w
     = (Returns (PyDict [("transcript", PyStr transcript);
                         ("sentences", PyList sentences)]), w)) ∨
  (∃ e,
     transcribe_audio E G file_path w
     = (Raises (HTTPException 500 ("Error during transcription: " +:+ Py.str_of_exn e)),
        w)).
Proof.
  intros Hkey. unfold transcribe_audio. rewrite Hkey.
  run. unfold open_rb.
  destruct (fs w !! file_path) as [data|]; simpl.
  2: { right.
       exists (PyExc "FileNotFoundError"
                 ("[Errno 2] No such file or directory: " +:+ Py.quoted file_path)).
       reflexivity. }
  destruct (transcribe_file E _ data _) as [response|e]; simpl;
    [|right; exists e; reflexivity].
  destruct (Py.first (Deepgram.channels response)) as [channel|e]; simpl;
    [|right; exists e; reflexivity].
  destruct (Py.first (Deepgram.alternatives channel)) as [alternative|e]; simpl;
    [|right; exists e; reflexivity].
  left. eexists _, _. reflexivity.
Qed.

Lemma transcribe_audio_outcome_witness :
  (∃ transcript sentences,
     transcribe_audio Sample.env Sample.globals "uploads/none.mp3" Sample.world
     = (Returns (PyDict [("transcript", PyStr transcript);
                         ("sentences", PyList sentences)]), Sample.world)) ∨
  (∃ e,
     transcribe_audio Sample.env Sample.globals "uploads/none.mp3" Sample.world
     = (Raises (HTTPException 500 ("Error during transcription: " +:+ Py.str_of_exn e)),
        Sample.world)).
Proof.
  apply (transcribe_audio_outcome Sample.env Sample.globals "uploads/none.mp3" Sample.world).
  reflexivity.
Defined.

Lemma transcribe_audio_raises (E : Env) (G : Globals) (file_path : string) (w : World) (e : exn) :
  (transcribe_audio E G file_path w).1 = Raises e →
  ∃ detail, e = HTTPException 500 detail.
Proof.
  unfold transcribe_audio.
  destruct (Py.falsy (DEEPGRAM_API_KEY G)); [discriminate|].
  run. unfold open_rb.
  destruct (fs w !! file_path) as [data|]; simpl; [|intros [= <-]; eauto].
  destruct (transcribe_file E _ data _) as [response|e0]; simpl; [|intros [= <-]; eauto].
  destruct (Py.first (Deepgram.channels response)) as [channel|e0]; simpl;
    [|intros [= <-]; eauto].
  destruct (Py.first (Deepgram.alternatives channel)) as [alternative|e0]; simpl;
    [discriminate|intros [= <-]; eauto].
Qed.

Lemma endpoint_rejects (E : Env) (G : Globals) (file : UploadFile.t)
    (content_type : string) (w : World) :
  UploadFile.content_type file = Some content_type →
  Py.startswith content_type "audio/" = false →
  transcribe_audio_endpoint E G file w
  = (Raises (HTTPException 400 "File must be an audio file"), w).
Proof.
  intros Htype Haudio. unfold transcribe_audio_endpoint. rewrite Htype.
  unfold Py.attr_startswith, mbind, M_bind, lift. rewrite Haudio. reflexivity.
Qed.

Lemma endpoint_untyped (E : Env) (G : Globals) (file : UploadFile.t) (w : World) :
  UploadFile.content_type file = None →
  transcribe_audio_endpoint E G file w
  = (Raises (PyExc "AttributeError" "'NoneType' object has no attribute 'startswith'"),
     w).
Proof.
  intros Htype. unfold transcribe_audio_endpoint. rewrite Htype. reflexivity.
Qed.

Lemma endpoint_save_fault (E : Env) (G : Globals) (file : UploadFile.t)
    (content_type : string) (w : World) (e : exn) (remains : option string) :
  UploadFile.content_type file = Some content_type →
  Py.startswith content_type "audio/" = true →
  save_fault E (upload_path E file) (UploadFile.file file) = Some (e, remains) →
  transcribe_audio_endpoint E G file w
  = (Raises (HTTPException 500 ("Error saving file: " +:+ Py.str_of_exn e)),
     match remains with
     | Some partial => set_fs <[upload_path E file := partial]> w
     | None => w
     end).
Proof.
  intros Htype Haudio Hsave. unfold transcribe_audio_endpoint. rewrite Htype.
  unfold Py.attr_startswith, mbind at 1, M_bind at 1, lift.
  rewrite Haudio. change (negb true) with false. cbv iota zeta.
  unfold mbind at 1, M_bind at 1, try_except, save_upload. rewrite Hsave.
  reflexivity.
Qed.

(** X3. The transcribe endpoint answers 400 exactly to an upload that
    declares a content type not starting with [audio/], and then writes
    nothing and changes nothing. An upload without a content type ends in an
    [AttributeError] (status 500), also before any effect; every upload with
    an audio content type is answered 200 or 500. *)
Theorem transcribe_endpoint_status (E : Env) (G : Globals) (file : UploadFile.t) (w : World) :
  match UploadFile.content_type file with
  | Some content_type =>
      if Py.startswith content_type "audio/"
      then http_status (transcribe_audio_endpoint E G file w).1 = 200%Z ∨
           http_status (transcribe_audio_endpoint E G file w).1 = 500%Z
      else transcribe_audio_endpoint E G file w
           = (Raises (HTTPException 400 "File must be an audio file"), w)
  | None =>
      (∃ msg,
         transcribe_audio_endpoint E G file w
         = (Raises (PyExc "AttributeError" msg), w)) ∧
      http_status (transcribe_audio_endpoint E G file w).1 = 500%Z
  end.
Proof.
  destruct (UploadFile.content_type file) as [content_type|] eqn:Htype.
  - destruct (Py.startswith content_type "audio/") eqn:Haudio.
    + destruct (save_fault E (upload_path E file) (UploadFile.file file))
        as [[e remains]|] eqn:Hsave.
      * right.
        rewrite (endpoint_save_fault E G file content_type w e remains
                   Htype Haudio Hsave).
        reflexivity.
      * rewrite (endpoint_run E G file content_type w Htype Haudio Hsave). cbn [fst].
        destruct (transcribe_audio E G _ _).1 as [result|e] eqn:Hrun.
        -- apply transcription_response_status.
        -- destruct (transcribe_audio_raises _ _ _ _ _ Hrun) as [detail ->].
           right. reflexivity.
    + exact (endpoint_rejects E G file content_type w Htype Haudio).
  - rewrite (endpoint_untyped E G file w Htype). split; [eauto|reflexivity].
Qed.

(** X4. When storing the upload fails, the endpoint answers 500 with
    "Error saving file: " followed by the text of the error, and does not
    clean up: what the failed write left at the path of the upload stays
    there, and nothing else changes. *)
Theorem failed_save_answers_500 (E : Env) (G : Globals) (file : UploadFile.t)
    (content_type : string) (w : World) (e : exn) (remains : option string) :
  UploadFile.content_type file = Some content_type →
  Py.startswith content_type "audio/" = true →
  save_fault E (upload_path E file) (UploadFile.file file) = Some (e, remains) →
  transcribe_audio_endpoint E G file w
  = (Raises (HTTPException 500 ("Error saving file: " +:+ Py.str_of_exn e)),
     match remains with
     | Some partial => set_fs <[upload_path E file := partial]> w
     | None => w
     end).
Proof. apply endpoint_save_fault. Qed.

Lemma failed_save_answers_500_witness :
  transcribe_audio_endpoint Sample.full_disk_env Sample.globals Sample.upload Sample.world
  = (Raises (HTTPException 500
               ("Error saving file: "
                +:+ Py.str_of_exn (PyExc "OSError" "[Errno 28] No space left on device"))),
     set_fs <[upload_path Sample.full_disk_env Sample.upload := ""]> Sample.world).
Proof.
  apply (failed_save_answers_500 Sample.full_disk_env Sample.globals Sample.upload
           "audio/mpeg" Sample.world
           (PyExc "OSError" "[Errno 28] No space left on device") (Some ""));
    reflexivity.
Defined.

Lemma world_restored (w : World) (path data : string) :
  fs w !! path = None →
  set_fs (delete path) (set_fs <[path := data]> w) = w.
Proof.
  intros Hfresh. destruct w as [files requests]. unfold set_fs. simpl in *.
  f_equal. apply delete_insert_id. exact Hfresh.
Qed.

(** X5. When the provider answers, the endpoint sends it the bytes of the
    upload and returns [success], the file name of the client, the transcript
    of the first alternative of the first channel, and the sentences of all
    its paragraphs, in their order, each with its text, start and end; if no
    file stood at the path of the upload before, the world is left as it was. *)
Theorem transcription_returned (E : Env) (G : Globals) (file : UploadFile.t)
    (content_type : string) (w : World)
    (response : Deepgram.Response) (channel : Deepgram.Channel)
    (alternative : Deepgram.Alternative)
    (channels : list Deepgram.Channel) (alternatives : list Deepgram.Alternative) :
  UploadFile.content_type file = Some content_type →
  Py.startswith content_type "audio/" = true →
  save_fault E (upload_path E file) (UploadFile.file file) = None →
  Py.falsy (DEEPGRAM_API_KEY G) = false →
  transcribe_file E (default "" (DEEPGRAM_API_KEY G)) (UploadFile.file file)
    prerecorded_options = Returns response →
  Deepgram.channels response = channel :: channels →
  Deepgram.alternatives channel = alternative :: alternatives →
  (transcribe_audio_endpoint E G file w).1
  = Returns
      (PyDict
         [("success", PyBool true);
          ("filename", PyStr (UploadFile.filename file));
          ("transcription", PyStr (Deepgram.transcript alternative));
          ("sentences",
           PyList
             (flat_map (λ paragraph, map format_sentence (Deepgram.sentences paragraph))
                (Deepgram.paragraphs alternative)))]) ∧
  (fs w !! upload_path E file = None →
   (transcribe_audio_endpoint E G file w).2 = w).
Proof.
  intros Htype Haudio Hsave Hkey Hresponse Hchannels Halternatives.
  rewrite (endpoint_run E G file content_type w Htype Haudio Hsave). cbn [fst snd].
  split; [|apply world_restored].
  unfold transcribe_audio. rewrite Hkey. run. unfold open_rb. simpl.
  rewrite lookup_insert_eq. simpl. rewrite Hresponse. simpl.
  rewrite Hchannels. simpl. rewrite Halternatives. reflexivity.
Qed.

Lemma transcription_returned_witness :
  (transcribe_audio_endpoint Sample.transcribing_env Sample.globals Sample.upload
     Sample.world).2 = Sample.world.
Proof.
  apply (transcription_returned Sample.transcribing_env Sample.globals Sample.upload
           "audio/mpeg" Sample.world Sample.lecture _ _ _ _
           eq_refl eq_refl eq_refl eq_refl eq_refl eq_refl eq_refl).
  reflexivity.
Defined.

(** X6. Run without the transcription key, the endpoint never returns the
    mock transcription: the mock payload has the keys [transcript] and
    [words], the handler reads [sentences], and the request ends in a
    [KeyError] (status 500) after the upload has been removed. *)
Theorem mock_transcription_is_not_returned (E : Env) (G : Globals) (file : UploadFile.t)
    (content_type : string) (w : World) :
  Py.falsy (DEEPGRAM_API_KEY G) = true →
  UploadFile.content_type file = Some content_type →
  Py.startswith content_type "audio/" = true →
  save_fault E (upload_path E file) (UploadFile.file file) = None →
  (transcribe_audio_endpoint E G file w).1 = Raises (PyExc "KeyError" "'sentences'") ∧
  http_status (transcribe_audio_endpoint E G file w).1 = 500%Z ∧
  fs (transcribe_audio_endpoint E G file w).2 !! upload_path E file = None.
Proof.
  intros Hkey Htype Haudio Hsave.
  rewrite (endpoint_run E G file content_type w Htype Haudio Hsave).
  rewrite transcribe_audio_mock by exact Hkey.
  split; [reflexivity|]. split; [reflexivity|]. apply lookup_delete_eq.
Qed.

Lemma mock_transcription_is_not_returned_witness :
  (transcribe_audio_endpoint Sample.env Sample.keyless_globals Sample.upload
     Sample.world).1 = Raises (PyExc "KeyError" "'sentences'").
Proof.
  apply (mock_transcription_is_not_returned Sample.env Sample.keyless_globals
           Sample.upload "audio/mpeg" Sample.world); reflexivity.
Defined.

(** X7. Whatever the upload and whatever fails, the transcribe endpoint
    sends nothing to the LLM provider and touches no file of the upload
    directory other than the one at the path of the upload. *)
Theorem transcribe_endpoint_frame (E : Env) (G : Globals) (file : UploadFile.t) (w : World) :
  llm_requests (transcribe_audio_endpoint E G file w).2 = llm_requests w ∧
  ∀ p, p ≠ upload_path E file →
       fs (transcribe_audio_endpoint E G file w).2 !! p = fs w !! p.
Proof.
  destruct (UploadFile.content_type file) as [content_type|] eqn:Htype.
  - destruct (Py.startswith content_type "audio/") eqn:Haudio.
    + destruct (save_fault E (upload_path E file) (UploadFile.file file))
        as [[e remains]|] eqn:Hsave.
      * rewrite (endpoint_save_fault E G file content_type w e remains
                   Htype Haudio Hsave).
        destruct remains as [partial|]; simpl; [|auto].
        split; [reflexivity|]. intros p Hp. apply lookup_insert_ne. congruence.
      * rewrite (endpoint_run E G file content_type w Htype Haudio Hsave). simpl.
        split; [reflexivity|]. intros p Hp.
        rewrite lookup_delete_ne by congruence. apply lookup_insert_ne. congruence.
    + rewrite (endpoint_rejects E G file content_type w Htype Haudio). auto.
  - rewrite (endpoint_untyped E G file w Htype). auto.
Qed.

(** ** Startup and the LLM client (lines 25-49, 168 and 276) *)

(** X8. In a process that started, the module variables hold the two keys
    of the environment; the generators are in stub mode exactly when the LLM
    key is unset or empty or the [groq] package is not installed, and
    otherwise call a client built with the key of the environment. The test
    [not GROQ_API_KEY] of the generators adds nothing to [not groq_client]. *)
Theorem started_llm_client (E : Env) (G : Globals) :
  startup E = Returns G →
  DEEPGRAM_API_KEY G = environ E "DEEPGRAM_API_KEY" ∧
  GROQ_API_KEY G = environ E "GROQ_API_KEY" ∧
  (llm_client G = None ↔
   Py.falsy (environ E "GROQ_API_KEY") = true ∨ groq_installed E = false) ∧
  (∀ client,
     llm_client G = Some client →
     environ E "GROQ_API_KEY" = Some (api_key client) ∧ api_key client ≠ "") ∧
  llm_client G = groq_client G.
Proof.
  unfold startup.
  destruct (Py.falsy (environ E "DEEPGRAM_API_KEY")); [discriminate|].
  intros [= <-]. unfold llm_client. simpl.
  split; [reflexivity|]. split; [reflexivity|].
  destruct (environ E "GROQ_API_KEY") as [key|] eqn:Hkey; simpl.
  - destruct (String.eqb_spec key "") as [->|Hne]; simpl.
    + split; [split; auto|]. split; [discriminate|reflexivity].
    + destruct (groq_installed E); simpl.
      * split; [split; [discriminate|intros [H|H]; discriminate H]|].
        split; [|reflexivity]. intros c [= <-]. simpl. auto.
      * split; [split; auto|]. split; [discriminate|reflexivity].
  - split; [split; auto|]. split; [discriminate|reflexivity].
Qed.

Lemma started_llm_client_witness :
  llm_client Sample.globals = groq_client Sample.globals.
Proof.
  apply (started_llm_client Sample.env Sample.globals). reflexivity.
Defined.

(** ** What the summary and quiz endpoints do to the world *)

Lemma generate_bullet_summary_world (E : Env) (G : Globals) (transcript : string) (w : World) :
  (generate_bullet_summary E G transcript w).2
  = match llm_client G with
    | Some _ => sent (summary_request transcript) w
    | None => w
    end.
Proof.
  destruct (llm_client G) as [client|] eqn:Hc.
  - rewrite (generate_bullet_summary_live E G client) by exact Hc. reflexivity.
  - rewrite generate_bullet_summary_stub by exact Hc. reflexivity.
Qed.

Lemma generate_quiz_questions_world
    (E : Env) (G : Globals) (transcript : string) (n : Z) (w : World) :
  (generate_quiz_questions E G transcript n w).2
  = match llm_client G with
    | Some _ => sent (quiz_request transcript n) w
    | None => w
    end.
Proof.
  destruct (llm_client G) as [client|] eqn:Hc.
  - rewrite (generate_quiz_questions_live E G client) by exact Hc. reflexivity.
  - rewrite generate_quiz_questions_stub by exact Hc. reflexivity.
Qed.

Lemma generate_summary_endpoint_world (E : Env) (G : Globals) (request : SummaryRequest.t) (w : World) :
  (generate_summary_endpoint E G request w).2
  = if String.eqb (SummaryRequest.transcript request) "" then w
    else (generate_bullet_summary E G
            (truncate_transcript (SummaryRequest.transcript request)) w).2.
Proof.
  unfold generate_summary_endpoint, require_transcript.
  destruct (String.eqb (SummaryRequest.transcript request) ""); [reflexivity|].
  destruct (generate_bullet_summary_returns E G
              (truncate_transcript (SummaryRequest.transcript request)) w)
    as (summary & w' & Hs).
  run. rewrite Hs. reflexivity.
Qed.

Lemma generate_quiz_endpoint_world (E : Env) (G : Globals) (request : QuizRequest.t) (w : World) :
  (generate_quiz_endpoint E G request w).2
  = if String.eqb (QuizRequest.transcript request) "" then w
    else match QuizRequest.num_questions request with
         | None => w
         | Some n =>
             (generate_quiz_questions E G
                (truncate_transcript (QuizRequest.transcript request))
                (Z.max 1 (Z.min n 10)) w).2
         end.
Proof.
  unfold generate_quiz_endpoint, require_transcript.
  destruct (String.eqb (QuizRequest.transcript request) ""); [reflexivity|].
  destruct (QuizRequest.num_questions request) as [n|]; [|reflexivity].
  destruct (generate_quiz_questions_returns E G
              (truncate_transcript (QuizRequest.transcript request))
              (Z.max 1 (Z.min n 10)) w) as (questions & w' & Hq).
  run. rewrite Hq. reflexivity.
Qed.

(** X9. The summary and the quiz endpoint never touch the upload directory
    and send at most one request to the LLM provider; they send none in stub
    mode, for an empty transcript, and (the quiz endpoint) for a request
    whose number of questions is null. *)
Theorem generator_endpoints_frame (E : Env) (G : Globals)
    (summary_of : SummaryRequest.t) (quiz_of : QuizRequest.t) (w : World) :
  fs (generate_summary_endpoint E G summary_of w).2 = fs w ∧
  fs (generate_quiz_endpoint E G quiz_of w).2 = fs w ∧
  (∃ requests,
     llm_requests (generate_summary_endpoint E G summary_of w).2
       = llm_requests w ++ requests ∧
     length requests ≤ 1 ∧
     (llm_client G = None ∨ SummaryRequest.transcript summary_of = "" → requests = [])) ∧
  (∃ requests,
     llm_requests (generate_quiz_endpoint E G quiz_of w).2
       = llm_requests w ++ requests ∧
     length requests ≤ 1 ∧
     (llm_client G = None ∨ QuizRequest.transcript quiz_of = "" ∨
      QuizRequest.num_questions quiz_of = None → requests = [])).
Proof.
  rewrite generate_summary_endpoint_world, generate_quiz_endpoint_world.
  assert (Hnone : ∃ requests,
            llm_requests w = llm_requests w ++ requests ∧ length requests ≤ 1 ∧
            requests = [])
    by (exists []; rewrite app_nil_r; auto).
  split; [|split; [|split]].
  - destruct (String.eqb (SummaryRequest.transcript summary_of) ""); [reflexivity|].
    rewrite generate_bullet_summary_world. destruct (llm_client G); reflexivity.
  - destruct (String.eqb (QuizRequest.transcript quiz_of) ""); [reflexivity|].
    destruct (QuizRequest.num_questions quiz_of); [|reflexivity].
    rewrite generate_quiz_questions_world. destruct (llm_client G); reflexivity.
  - destruct (String.eqb_spec (SummaryRequest.transcript summary_of) "") as [Hs|Hs].
    { destruct Hnone as (r & H1 & H2 & H3). exists r. auto. }
    rewrite generate_bullet_summary_world.
    destruct (llm_client G) as [client|].
    + eexists [_]. split; [reflexivity|]. split; [simpl; lia|].
      intros [H|H]; [discriminate H|contradiction].
    + destruct Hnone as (r & H1 & H2 & H3). exists r. auto.
  - destruct (String.eqb_spec (QuizRequest.transcript quiz_of) "") as [Hq|Hq].
    { destruct Hnone as (r & H1 & H2 & H3). exists r. auto. }
    destruct (QuizRequest.num_questions quiz_of) as [n|].
    2: { destruct Hnone as (r & H1 & H2 & H3). exists r. auto. }
    rewrite generate_quiz_questions_world.
    destruct (llm_client G) as [client|].
    + eexists [_]. split; [reflexivity|]. split; [simpl; lia|].
      intros [H|[H|H]]; [discriminate H|contradiction|discriminate H].
    + destruct Hnone as (r & H1 & H2 & H3). exists r. auto.
Qed.

(** ** The summary endpoint on an answer of the provider (lines 223-235, 263-268) *)



(** ** Truncation (lines 258-261 and 420-423) *)

(** X11. The text passed to a generator is the transcript itself when the
    transcript has at most 16,000 characters, and never has more than 16,040
    characters; truncating a truncated transcript changes nothing. *)
Theorem truncate_transcript_bounded (transcript : string) :
  ((Py.len_str transcript ≤ 16000)%Z → truncate_transcript transcript = transcript) ∧
  (Py.len_str (truncate_transcript transcript) ≤ 16040)%Z ∧
  truncate_transcript (truncate_transcript transcript) = truncate_transcript transcript.
Proof.
  split; [apply truncate_transcript_short|].
  destruct (Z.le_gt_cases (Py.len_str transcript) 16000) as [Hshort|Hlong].
  - rewrite (truncate_transcript_short _ Hshort).
    split; [lia|apply truncate_transcript_short; exact Hshort].
  - destruct (truncate_transcript_long transcript) as (head & rest & _ & Hhead & ->);
      [lia|].
    assert (Hlen : Py.len_str (head +:+ truncation_marker) = 16040%Z).
    { unfold Py.len_str in *. rewrite length_append.
      change (String.length truncation_marker) with 40. lia. }
    split; [lia|].
    unfold truncate_transcript. rewrite Hlen. change (max_length <? 16040)%Z with true.
    cbv iota. f_equal.
    replace (Z.to_nat max_length) with (String.length head)
      by (unfold Py.len_str, max_length in *; lia).
    apply slice_to_append.
Qed.

(** ** Validation of the questions (lines 370-385) *)

Lemma dict_get_set_other (k k' : string) (v : pyval) (d : list (string * pyval)) :
  k ≠ k' → Py.dict_get k' (Py.dict_set k v d) = Py.dict_get k' d.
Proof.
  intros Hne. induction d as [|[k0 v0] d IH]; simpl.
  - apply String.eqb_neq in Hne. rewrite Hne. reflexivity.
  - destruct (String.eqb k0 k) eqn:Hk; simpl.
    + apply String.eqb_eq in Hk. subst k0.
      apply String.eqb_neq in Hne. rewrite Hne. reflexivity.
    + destruct (String.eqb k0 k'); [reflexivity|exact IH].
Qed.

Lemma dict_set_same_value (k : string) (v : pyval) (d : list (string * pyval)) :
  Py.dict_get k d = Some v → Py.dict_set k v d = d.
Proof.
  induction d as [|[k0 v0] d IH]; simpl; [discriminate|].
  destruct (String.eqb k0 k); [intros [= ->]; reflexivity|].
  intros H. rewrite (IH H). reflexivity.
Qed.

Lemma dict_set_twice (k : string) (v1 v2 : pyval) (d : list (string * pyval)) :
  Py.dict_set k v2 (Py.dict_set k v1 d) = Py.dict_set k v2 d.
Proof.
  induction d as [|[k0 v0] d IH]; simpl.
  - rewrite String.eqb_refl. reflexivity.
  - destruct (String.eqb k0 k) eqn:Hk; simpl; rewrite Hk; [reflexivity|].
    rewrite IH. reflexivity.
Qed.

Lemma dict_set_keys (k : string) (v old : pyval) (d : list (string * pyval)) :
  Py.dict_get k d = Some old → map fst (Py.dict_set k v d) = map fst d.
Proof.
  induction d as [|[k0 v0] d IH]; simpl; [discriminate|].
  destruct (String.eqb k0 k); [reflexivity|].
  intros H. simpl. rewrite (IH H). reflexivity.
Qed.

(** A question with its three fields and a valid index is kept as it is. *)
Lemma validate_question_valid (q : pyval) :
  Py.contains "question" q = Returns true →
  valid_index q = true →
  validate_question q = Returns (Some q).
Proof.
  intros Hq Hvalid. unfold valid_index in Hvalid.
  destruct (Py.getitem q "correct_answer") as [answer|] eqn:Ha; [|discriminate].
  destruct (Py.getitem q "options") as [options|] eqn:Ho; [|discriminate].
  destruct (Py.as_int answer) as [n|] eqn:Hn; [|discriminate].
  destruct (Py.len options) as [size|] eqn:Hsize; [|discriminate].
  apply andb_prop in Hvalid as [Hlow Hhigh].
  apply Z.leb_le in Hlow. apply Z.ltb_lt in Hhigh.
  destruct q; try discriminate Ha.
  simpl in Ha, Ho, Hq.
  destruct (Py.dict_get "correct_answer" entries) as [a|] eqn:Hda; [|discriminate].
  destruct (Py.dict_get "options" entries) as [o|] eqn:Hdo; [|discriminate].
  injection Ha as ->. injection Ho as ->.
  unfold validate_question, Py.contains, mbind, outcome_bind.
  destruct (Py.dict_get "question" entries); [|discriminate].
  rewrite Hdo, Hda. simpl negb. cbv iota.
  assert (Hco : coerce_answer (PyDict entries) = Returns (PyDict entries)).
  { unfold coerce_answer, Py.getitem, mbind, outcome_bind. rewrite Hda.
    destruct answer; try reflexivity; discriminate Hn. }
  rewrite Hco. unfold answer_invalid, Py.getitem, mbind, outcome_bind.
  rewrite Hda, Hn, Hdo, Hsize.
  destruct (Z.ltb_spec n 0); [lia|].
  destruct (Z.leb_spec size n); [lia|]. reflexivity.
Qed.




Lemma coerce_answer_shape (d : list (string * pyval)) (q1 : pyval) :
  coerce_answer (PyDict d) = Returns q1 →
  q1 = PyDict d ∨ ∃ n, q1 = PyDict (Py.dict_set "correct_answer" (PyInt n) d).
Proof.
  unfold coerce_answer, Py.getitem, mbind, outcome_bind.
  destruct (Py.dict_get "correct_answer" d) as [answer|]; [|discriminate].
  destruct answer; try (intros [= <-]; auto).
  destruct (Py.isdigit s); [|intros [= <-]; auto].
  destruct (Py.int_of_str s) as [n|]; [|discriminate].
  simpl. intros [= <-]. eauto.
Qed.

(** A question that is kept is an object with the three fields, and what is
    appended is this object with, at most, another [correct_answer]. *)
Lemma validate_question_shape (q q' : pyval) :
  validate_question q = Returns (Some q') →
  ∃ d answer,
    q = PyDict d ∧
    is_Some (Py.dict_get "question" d) ∧
    is_Some (Py.dict_get "options" d) ∧
    is_Some (Py.dict_get "correct_answer" d) ∧
    q' = PyDict (Py.dict_set "correct_answer" answer d).
Proof.
  unfold validate_question, mbind, outcome_bind.
  destruct (Py.contains "question" q) as [[]|] eqn:Hq; try discriminate.
  destruct (Py.contains "options" q) as [[]|] eqn:Ho; try discriminate.
  destruct (Py.contains "correct_answer" q) as [[]|] eqn:Ha; try discriminate.
  simpl negb. cbv iota.
  destruct q as [| | | | |items|d]; try discriminate Hq;
    try (unfold coerce_answer; simpl; discriminate).
  simpl in Hq, Ho, Ha.
  destruct (Py.dict_get "question" d) as [text|] eqn:Hdq; [|discriminate].
  destruct (Py.dict_get "options" d) as [options|] eqn:Hdo; [|discriminate].
  destruct (Py.dict_get "correct_answer" d) as [old|] eqn:Hda; [|discriminate].
  destruct (coerce_answer (PyDict d)) as [q1|] eqn:Hco; [|discriminate].
  destruct (answer_invalid q1) as [invalid|]; [|discriminate].
  intros Hq'.
  assert (Hshape : ∃ answer, q' = PyDict (Py.dict_set "correct_answer" answer d)).
  { destruct (coerce_answer_shape d q1 Hco) as [->|[n ->]]; destruct invalid;
      simpl in Hq'; injection Hq' as <-.
    - eauto.
    - exists old. rewrite (dict_set_same_value _ _ _ Hda). reflexivity.
    - exists (PyInt 0). rewrite dict_set_twice. reflexivity.
    - eauto. }
  destruct Hshape as [answer ->]. exists d, answer. repeat split; eauto.
Qed.

(** X13. Validation keeps the order of the questions and changes nothing
    but [correct_answer]: the validated questions are, in order, some of the
    raw ones, each an object with the same keys in the same order and the
    same value under every key other than [correct_answer]. *)
Theorem validation_keeps_questions (raw validated : list pyval) :
  validate_questions raw = Returns validated →
  ∃ kept,
    kept `sublist_of` raw ∧
    Forall2
      (λ q q',
         ∃ d d',
           q = PyDict d ∧ q' = PyDict d' ∧ map fst d' = map fst d ∧
           ∀ k, k ≠ "correct_answer" → Py.dict_get k d' = Py.dict_get k d)
      kept validated.
Proof.
  revert validated. induction raw as [|q raw IH]; intros validated; simpl.
  - intros [= <-]. exists []. split; constructor.
  - unfold mbind, outcome_bind.
    destruct (validate_question q) as [result|] eqn:Hq; [|discriminate].
    destruct (validate_questions raw) as [rest|]; [|discriminate].
    intros [= <-]. destruct (IH rest eq_refl) as (kept & Hsub & Hall).
    destruct result as [q'|].
    + destruct (validate_question_shape q q' Hq)
        as (d & answer & -> & _ & _ & [old Hold] & ->).
      exists (PyDict d :: kept). split; [constructor; exact Hsub|].
      constructor; [|exact Hall].
      exists d, (Py.dict_set "correct_answer" answer d).
      split; [reflexivity|]. split; [reflexivity|].
      split; [exact (dict_set_keys _ _ _ _ Hold)|].
      intros k Hk. apply dict_get_set_other. congruence.
    + exists kept. split; [constructor; exact Hsub|exact Hall].
Qed.

Lemma validation_keeps_questions_witness :
  ∃ kept,
    kept `sublist_of`
      [Sample.raw_question "Is the sky blue?" ["Yes"; "No"] (PyStr "7");
       PyDict [("question", PyStr "Why?")]] ∧
    Forall2
      (λ q q',
         ∃ d d',
           q = PyDict d ∧ q' = PyDict d' ∧ map fst d' = map fst d ∧
           ∀ k, k ≠ "correct_answer" → Py.dict_get k d' = Py.dict_get k d)
      kept
      [Sample.raw_question "Is the sky blue?" ["Yes"; "No"] (PyInt 0)].
Proof.
  apply (validation_keeps_questions
           [Sample.raw_question "Is the sky blue?" ["Yes"; "No"] (PyStr "7");
            PyDict [("question", PyStr "Why?")]]).
  reflexivity.
Defined.

(** X14. Validation is idempotent on a question whose options have a
    length: a question that validation returned is returned unchanged when it
    is validated again. *)
Theorem validate_question_idempotent (q q' options : pyval) (size : Z) :
  validate_question q = Returns (Some q') →
  Py.getitem q' "options" = Returns options →
  Py.len options = Returns size →
  validate_question q' = Returns (Some q').
Proof.
  intros Hq Hoptions Hsize.
  destruct (validate_question_shape q q' Hq)
    as (d & answer & -> & [text Htext] & _ & [old Hold] & ->).
  assert (Hhas : Py.contains "question"
                   (PyDict (Py.dict_set "correct_answer" answer d)) = Returns true).
  { simpl. rewrite dict_get_set_other by discriminate. rewrite Htext. reflexivity. }
  destruct (validate_question_repaired _ _ Hq) as [Hvalid|Hzero].
  - apply validate_question_valid; assumption.
  - destruct (Z.ltb_spec 0 size) as [Hpos|Hempty].
    + apply validate_question_valid; [exact Hhas|].
      exact (repaired_valid_when_options _ (or_intror Hzero) _ _ Hoptions Hsize Hpos).
    + simpl in Hzero, Hoptions.
      rewrite dict_get_set_same in Hzero. injection Hzero as ->.
      rewrite dict_get_set_other in Hoptions by discriminate.
      destruct (Py.dict_get "options" d) as [o|] eqn:Hdo; [|discriminate].
      injection Hoptions as ->.
      unfold validate_question, Py.contains, mbind, outcome_bind.
      rewrite !dict_get_set_other by discriminate.
      rewrite Htext, Hdo, dict_get_set_same. simpl negb. cbv iota.
      unfold coerce_answer, Py.getitem, mbind, outcome_bind.
      rewrite dict_get_set_same.
      unfold answer_invalid, Py.getitem, mbind, outcome_bind.
      rewrite dict_get_set_same. simpl Py.as_int. cbv iota.
      change (0 <? 0)%Z with false. cbv iota.
      rewrite dict_get_set_other by discriminate. rewrite Hdo, Hsize.
      destruct (Z.leb_spec size 0); [|lia].
      simpl. rewrite dict_set_twice. reflexivity.
Qed.

Lemma validate_question_idempotent_witness :
  validate_question (Sample.raw_question "Is the sky blue?" ["Yes"; "No"] (PyInt 0))
  = Returns (Some (Sample.raw_question "Is the sky blue?" ["Yes"; "No"] (PyInt 0))).
Proof.
  apply (validate_question_idempotent
           (Sample.raw_question "Is the sky blue?" ["Yes"; "No"] (PyStr "7"))
           (Sample.raw_question "Is the sky blue?" ["Yes"; "No"] (PyInt 0))
           (PyList [PyStr "Yes"; PyStr "No"]) 2); reflexivity.
Defined.

(** Without a length of the options the second validation can fail: the
    first one sets the index to 0 without looking at the options. *)
Example validate_twice_unsized :
  validate_question
    (PyDict [("question", PyStr "Why?"); ("options", PyInt 4);
             ("correct_answer", PyStr "first")])
  = Returns (Some (PyDict [("question", PyStr "Why?"); ("options", PyInt 4);
                           ("correct_answer", PyInt 0)])) ∧
  validate_question
    (PyDict [("question", PyStr "Why?"); ("options", PyInt 4);
             ("correct_answer", PyInt 0)])
  = Raises (PyExc "TypeError" "object of type 'int' has no len()").
Proof. split; reflexivity. Qed.


(** X15. An object that lacks one of the fields [question], [options] and
    [correct_answer] is skipped wherever it stands in the array: the outcome
    of validation is that of the array without it. *)
Theorem missing_field_question_skipped
    (before after : list pyval) (d : list (string * pyval)) :
  Py.dict_get "question" d = None ∨
  Py.dict_get "options" d = None ∨
  Py.dict_get "correct_answer" d = None →
  validate_questions (before ++ PyDict d :: after) = validate_questions (before ++ after).
Proof.
  intros Hmissing. rewrite !validate_questions_app.
  rewrite (validate_questions_skip (PyDict d) after
             (validate_question_missing_field d Hmissing)).
  reflexivity.
Qed.

Lemma missing_field_question_skipped_witness :
  validate_questions
    ([Sample.raw_question "Is the sky blue?" ["Yes"; "No"] (PyInt 1)]
     ++ PyDict [("question", PyStr "Why?"); ("options", PyList [])] :: [])
  = validate_questions
      ([Sample.raw_question "Is the sky blue?" ["Yes"; "No"] (PyInt 1)] ++ []).
Proof.
  apply (missing_field_question_skipped
           [Sample.raw_question "Is the sky blue?" ["Yes"; "No"] (PyInt 1)] []
           [("question", PyStr "Why?"); ("options", PyList [])]).
  right. right. reflexivity.
Defined.

Lemma decimal_value_nonneg (s : string) (acc : Z) :
  (0 ≤ acc)%Z → Py.all_chars Py.is_decimal s = true → (0 ≤ Py.decimal_value acc s)%Z.
Proof.
  revert acc. induction s as [|c s IH]; intros acc Hacc; simpl; [auto|].
  intros [Hc Hs]%andb_prop. apply IH; [|exact Hs].
  unfold Py.is_decimal in Hc. apply andb_prop in Hc as [Hlow _].
  apply Nat.leb_le in Hlow. lia.
Qed.

(** X16. A [correct_answer] that is a non-empty string of decimal digits,
    of at most 4300, is replaced by the integer it denotes when that integer
    is an index of the options, and by 0 when it is not; on a string of more
    than 4300 decimal digits [int()] raises [ValueError] and validation of the
    question raises it. *)
Theorem decimal_string_answer (d : list (string * pyval)) (text options : pyval)
    (s : string) (size : Z) :
  Py.dict_get "question" d = Some text →
  Py.dict_get "options" d = Some options →
  Py.dict_get "correct_answer" d = Some (PyStr s) →
  s ≠ "" →
  Py.all_chars Py.is_decimal s = true →
  Py.len options = Returns size →
  if (String.length s <=? 4300)%nat
  then validate_question (PyDict d)
       = Returns (Some (PyDict (Py.dict_set "correct_answer"
                                  (PyInt (if (Py.decimal_value 0 s <? size)%Z
                                          then Py.decimal_value 0 s else 0))
                                  d)))
  else ∃ msg, validate_question (PyDict d) = Raises (PyExc "ValueError" msg).
Proof.
  intros Hq Ho Ha Hne Hdec Hsize.
  pose proof (decimal_value_nonneg s 0 (Z.le_refl 0) Hdec) as Hnonneg.
  unfold validate_question, Py.contains, mbind, outcome_bind.
  rewrite Hq, Ho, Ha. simpl negb. cbv iota.
  destruct (Nat.leb_spec (String.length s) 4300) as [Hlen|Hlen].
  - rewrite (coerce_answer_decimal d s Ha Hne Hdec Hlen).
    unfold answer_invalid, Py.getitem, mbind, outcome_bind.
    rewrite dict_get_set_same. simpl Py.as_int. cbv iota.
    destruct (Z.ltb_spec (Py.decimal_value 0 s) 0); [lia|].
    rewrite dict_get_set_other by discriminate. rewrite Ho, Hsize.
    destruct (Z.leb_spec size (Py.decimal_value 0 s));
      destruct (Z.ltb_spec (Py.decimal_value 0 s) size); try lia.
    + simpl. rewrite dict_set_twice. reflexivity.
    + reflexivity.
  - unfold coerce_answer, Py.getitem, mbind, outcome_bind. rewrite Ha.
    assert (Hdigit : Py.isdigit s = true).
    { unfold Py.isdigit. destruct s; [congruence|].
      exact (is_decimal_is_digit _ Hdec). }
    rewrite Hdigit. unfold Py.int_of_str.
    rewrite (leading_decimals_all s Hdec).
    destruct (Nat.ltb_spec Py.max_str_digits (String.length s)) as [_|Hle];
      [|unfold Py.max_str_digits in Hle; lia].
    eexists. reflexivity.
Qed.

Lemma decimal_string_answer_witness :
  validate_question
    (Sample.raw_question "What is x squared?" ["x"; "2x"; "x*x"; "x+2"] (PyStr "02"))
  = Returns (Some (Sample.raw_question "What is x squared?" ["x"; "2x"; "x*x"; "x+2"]
                     (PyInt 2))).
Proof.
  apply (decimal_string_answer
           [("question", PyStr "What is x squared?");
            ("options", PyList (map PyStr ["x"; "2x"; "x*x"; "x+2"]));
            ("correct_answer", PyStr "02")]
           (PyStr "What is x squared?") (PyList (map PyStr ["x"; "2x"; "x*x"; "x+2"]))
           "02" 4); try reflexivity.
  discriminate.
Defined.

(** X17. In an object with the three fields, a [correct_answer] that is
    neither an integer nor a string of digits (null, a float, a list, a text)
    is replaced by 0 whatever the options are, and an integer (or boolean)
    that is negative or not below the length of the options is replaced by 0;
    the question is kept. *)
Theorem invalid_answer_defaults_to_zero (d : list (string * pyval))
    (text options answer : pyval) :
  Py.dict_get "question" d = Some text →
  Py.dict_get "options" d = Some options →
  Py.dict_get "correct_answer" d = Some answer →
  (Py.as_int answer = None ∧ (∀ s, answer = PyStr s → Py.isdigit s = false)) ∨
  (∃ n size,
     Py.as_int answer = Some n ∧ Py.len options = Returns size ∧ (n < 0 ∨ size ≤ n)%Z) →
  validate_question (PyDict d)
  = Returns (Some (PyDict (Py.dict_set "correct_answer" (PyInt 0) d))).
Proof.
  intros Hq Ho Ha [[Hint Hstr]|(n & size & Hint & Hsize & Hrange)].
  - exact (validate_question_not_integer d text options answer Hq Ho Ha Hint Hstr).
  - exact (validate_question_out_of_range d text options answer n size
             Hq Ho Ha Hint Hsize Hrange).
Qed.

Lemma invalid_answer_defaults_to_zero_witness :
  validate_question
    (Sample.raw_question "Is the sky blue?" ["Yes"; "No"] (PyFloat "1.0"))
  = Returns (Some (Sample.raw_question "Is the sky blue?" ["Yes"; "No"] (PyInt 0))).
Proof.
  apply (invalid_answer_defaults_to_zero
           [("question", PyStr "Is the sky blue?");
            ("options", PyList (map PyStr ["Yes"; "No"]));
            ("correct_answer", PyFloat "1.0")]
           (PyStr "Is the sky blue?") (PyList (map PyStr ["Yes"; "No"])) (PyFloat "1.0"));
    try reflexivity.
  left. split; [reflexivity|discriminate].
Defined.

(** ** The outcome of the summary and quiz handlers (lines 247-270, 410-435) *)


(** ** Where the questions are taken from (lines 355-368) *)

(** X19. In an object without the key [questions], the questions are the
    value of the first key, in the order of the object, that holds a
    non-empty array; the keys before it, which hold empty arrays or values of
    other types, are passed over, and the keys after it are not looked at. *)
Theorem first_array_is_taken
    (before after : list (string * pyval)) (key : string) (value : pyval) :
  Py.dict_get "questions" (before ++ (key, value) :: after) = None →
  Forall (λ entry, nonempty_array entry.2 = false) before →
  nonempty_array value = true →
  extract_questions (PyDict (before ++ (key, value) :: after)) = Returns value.
Proof. apply extract_questions_other_key. Qed.

Lemma first_array_is_taken_witness :
  extract_questions
    (PyDict ([("title", PyStr "Quiz"); ("drafts", PyList [])]
             ++ ("items", PyList [PyInt 1]) :: [("more", PyList [PyInt 2])]))
  = Returns (PyList [PyInt 1]).
Proof.
  apply (first_array_is_taken
           [("title", PyStr "Quiz"); ("drafts", PyList [])]
           [("more", PyList [PyInt 2])] "items" (PyList [PyInt 1]));
    [reflexivity | repeat constructor | reflexivity].
Defined.


